(** * Managed datastore lifecycle of pkg/cluster/managed.go

    A shallow embedding of the managed-database coordinator: the driver
    resolver [assignManagedDriver], the reset/start sequence [start], the
    route registrar [initClusterDB], the readiness prober [testClusterDB]
    and the membership proxy updater [setupEtcdProxy].

    Synchronous code is written in a state monad over the outside world
    (file system and datastore) that also records, in order, every call the
    coordinator makes.  The two background tasks are written as loops over a
    script of the answers the environment gives them, one entry per
    iteration, because the world they observe is shared with the rest of the
    process. *)

From Stdlib Require Import String Ascii List Bool Arith Lia.
Import ListNotations.
Local Open Scope list_scope.
Local Open Scope string_scope.

Set Implicit Arguments.

(** ** Errors, strings and paths *)

(** Go [error] values: the "file does not exist" error of package [os], and
    any other error, identified by its message. *)
Inductive error : Type :=
| ErrNotExist (path : string)
| Errorf (msg : string).

(** [err.Error()], the text the [%v] verb prints. *)
Definition error_string (e : error) : string :=
  match e with
  | ErrNotExist p => "stat " ++ p ++ ": no such file or directory"
  | Errorf m => m
  end.

(** [os.IsNotExist] *)
Definition os_IsNotExist (e : error) : bool :=
  match e with
  | ErrNotExist _ => true
  | Errorf _ => false
  end.

(** [strings.HasPrefix s p] *)
Definition strings_HasPrefix (s p : string) : bool := String.prefix p s.

(** The two pieces of [s] around the first occurrence of the byte [c], when
    there is one. *)
Fixpoint cut (c : ascii) (s : string) : option (string * string) :=
  match s with
  | EmptyString => None
  | String a rest =>
      if Ascii.eqb a c then Some (EmptyString, rest)
      else match cut c rest with
           | Some (before, after) => Some (String a before, after)
           | None => None
           end
  end.

(** [strings.SplitN(s, string(c), 2)]: at most two substrings, split at the
    first separator. *)
Definition strings_SplitN2 (s : string) (c : ascii) : list string :=
  match cut c s with
  | Some (before, after) => [before; after]
  | None => [s]
  end.

Definition colon : ascii := ":"%char.

(** Whether the byte [c] occurs in [s]. *)
Fixpoint has_byte (c : ascii) (s : string) : bool :=
  match s with
  | EmptyString => false
  | String a rest => Ascii.eqb a c || has_byte c rest
  end.

Definition slash : ascii := "/"%char.

(** The pieces of [s] between the occurrences of the byte [c]:
    [strings.Split(s, string(c))]. *)
Fixpoint splitOn (c : ascii) (s : string) : list string :=
  match s with
  | EmptyString => [EmptyString]
  | String a rest =>
      if Ascii.eqb a c then EmptyString :: splitOn c rest
      else match splitOn c rest with
           | h :: t => String a h :: t
           | [] => [String a EmptyString]
           end
  end.

(** One path element of [filepath.Clean], on the stack of the elements
    kept so far (last one first): empty and [.] elements are dropped, a
    [..] element removes the element before it, is dropped at the root,
    and is kept at the front of a relative path. *)
Definition cleanStep (rooted : bool) (stack : list string) (elem : string)
  : list string :=
  if (elem =? "") || (elem =? ".") then stack
  else if elem =? ".." then
    match stack with
    | top :: below => if top =? ".." then elem :: stack else below
    | [] => if rooted then [] else [elem]
    end
  else elem :: stack.

(** [filepath.Clean] on a slash-separated path: the shortest equivalent
    path by lexical processing; the empty result is written [.]. *)
Definition filepath_Clean (path : string) : string :=
  match path with
  | EmptyString => "."
  | String first _ =>
      let rooted := Ascii.eqb first slash in
      let stack := fold_left (cleanStep rooted) (splitOn slash path) [] in
      let out :=
        (if rooted then "/" else "") ++ String.concat "/" (rev stack) in
      if out =? "" then "." else out
  end.

(** [filepath.Join]: empty elements are ignored, the others are joined by
    a slash and the result is cleaned; with no element left the result is
    the empty string. *)
Definition filepath_Join (elems : list string) : string :=
  match filter (fun e => negb (e =? "")) elems with
  | [] => ""
  | kept => filepath_Clean (String.concat "/" kept)
  end.

(** ** The outside world *)

(** What the file system holds at a path: nothing, a file that can be
    removed, an entry that exists but whose removal fails with the error of
    that message (a non-empty directory, a read-only file system), or an
    entry that the process cannot reach (every operation on it fails with
    the error of that message, e.g. a permission error). *)
Inductive FileState : Type :=
| Absent
| Present
| Undeletable (msg : string)
| Unreachable (msg : string).

Section Model.

(** The datastore behind the driver, the HTTP handlers and the client
    access credentials are opaque to the coordinator. *)
Variables DB Handler AccessInfo : Type.

Record World : Type := mkWorld {
  files : string -> FileState;
  db : DB
}.

(** [os.Stat], of which only the error is used. *)
Definition fs_Stat (p : string) (w : World) : option error :=
  match files w p with
  | Present => None
  | Undeletable _ => None
  | Absent => Some (ErrNotExist p)
  | Unreachable m => Some (Errorf m)
  end.

(** [os.Remove] *)
Definition fs_Remove (p : string) (w : World) : option error * World :=
  match files w p with
  | Present =>
      (None, mkWorld (fun q => if q =? p then Absent else files w q) (db w))
  | Absent => (Some (ErrNotExist p), w)
  | Undeletable m => (Some (Errorf m), w)
  | Unreachable m => (Some (Errorf m), w)
  end.

(** ** Configuration *)

(** [endpoint.Config] of kine: the endpoint string and the listener and
    TLS detail configured with it. *)
Record EndpointConfig : Type := mkEndpointConfig {
  Listener : string;
  Endpoint : string;
  CAFile : string;
  CertFile : string;
  KeyFile : string
}.

(** The composite literal [endpoint.Config{Endpoint: e}]: every other
    field takes its zero value. *)
Definition EndpointConfig_only (e : string) : EndpointConfig :=
  mkEndpointConfig "" e "" "" "".

Record Config : Type := mkConfig {
  DataDir : string;
  Datastore : EndpointConfig;
  ClusterInit : bool;
  ClusterReset : bool;
  Token : string;
  JoinURL : string
}.

Definition set_Datastore (cfg : Config) (ds : EndpointConfig) : Config :=
  mkConfig (DataDir cfg) ds (ClusterInit cfg) (ClusterReset cfg)
           (Token cfg) (JoinURL cfg).

(** ** Drivers *)

(** The methods of [managed.Driver] that the coordinator calls
    synchronously.  Each one may read and change the world.  [Reset]
    receives the two callbacks [rebootstrap] and [cleanCerts] and decides
    itself whether and when to run them.  [Test] and
    [GetMembersClientURLs] are called only from the background tasks;
    their answers come from the task's script. *)
Record Driver : Type := mkDriver {
  EndpointName : string;
  IsInitialized : Config -> World -> (bool * option error) * World;
  Start : AccessInfo -> World -> option error * World;
  Reset : (World -> option error * World) -> (World -> World) ->
          World -> option error * World;
  Register : Config -> Handler -> World -> (Handler * option error) * World
}.

Record Cluster : Type := mkCluster {
  managedDB : option Driver;
  config : Config;
  clientAccessInfo : AccessInfo
}.

Definition set_managedDB (c : Cluster) (d : Driver) : Cluster :=
  mkCluster (Some d) (config c) (clientAccessInfo c).

Definition set_config (c : Cluster) (cfg : Config) : Cluster :=
  mkCluster (managedDB c) cfg (clientAccessInfo c).

(** What the file imports from the rest of the repository:
    [etcd.ResetFile], [version.Program], [managed.Registered],
    [managed.Default] and the [storageBootstrap] method. *)
Record Imports : Type := mkImports {
  etcd_ResetFile : Config -> string;
  version_Program : string;
  managed_Registered : list Driver;
  managed_Default : string;
  storageBootstrap : Cluster -> World -> option error * World
}.

(** ** Recorded calls *)

Inductive Event : Type :=
| OsStat (path : string)
| OsRemove (path : string)
| CallIsInitialized (d : Driver)
| CallReset (d : Driver)
| CallStart (d : Driver)
| CallRegister (d : Driver)
| CallTest (d : Driver)
| CallGetMembersClientURLs (d : Driver)
| ProxyUpdate (addresses : list string)
| TimeAfter (seconds : nat)
| NewTicker (seconds : nat)
| CloseResult
| LogInfo (msg : string)
| LogWarn (msg : string).

Definition is_CallReset (ev : Event) : bool :=
  match ev with CallReset _ => true | _ => false end.
Definition is_CallStart (ev : Event) : bool :=
  match ev with CallStart _ => true | _ => false end.
Definition is_CallIsInitialized (ev : Event) : bool :=
  match ev with CallIsInitialized _ => true | _ => false end.
Definition is_CallTest (ev : Event) : bool :=
  match ev with CallTest _ => true | _ => false end.
Definition is_OsRemove (ev : Event) : bool :=
  match ev with OsRemove _ => true | _ => false end.
Definition is_ProxyUpdate (ev : Event) : bool :=
  match ev with ProxyUpdate _ => true | _ => false end.
Definition is_CloseResult (ev : Event) : bool :=
  match ev with CloseResult => true | _ => false end.

(** Number of recorded calls of one kind. *)
Definition calls (kind : Event -> bool) (tr : list Event) : nat :=
  List.length (filter kind tr).

(** ** The coordinator monad *)

Record Sys : Type := mkSys {
  world : World;
  trace : list Event
}.

Definition M (A : Type) : Type := Sys -> A * Sys.

Definition ret {A} (a : A) : M A := fun s => (a, s).

Definition bind {A B} (m : M A) (k : A -> M B) : M B :=
  fun s => let (a, s') := m s in k a s'.

(** Record the call [ev], then run [f] on the world. *)
Definition call {A} (ev : Event) (f : World -> A * World) : M A :=
  fun s => let (a, w') := f (world s) in (a, mkSys w' (trace s ++ [ev])%list).

Notation "x <- m ;; k" := (bind m (fun x => k))
  (at level 61, m at next level, right associativity).
Notation "m ;;; k" := (bind m (fun _ => k))
  (at level 61, right associativity).

Definition os_Stat (p : string) : M (option error) :=
  call (OsStat p) (fun w => (fs_Stat p w, w)).

Definition os_Remove (p : string) : M (option error) :=
  call (OsRemove p) (fs_Remove p).

(** ** The coordinator *)

Variable X : Imports.

(** *** cleanCerts *)

Definition certFiles (dataDir : string) : list string :=
  [ filepath_Join [dataDir; "tls"; "client-ca.crt"];
    filepath_Join [dataDir; "tls"; "client-ca.key"];
    filepath_Join [dataDir; "tls"; "server-ca.crt"];
    filepath_Join [dataDir; "tls"; "server-ca.key"];
    filepath_Join [dataDir; "tls"; "request-header-ca.crt"];
    filepath_Join [dataDir; "tls"; "request-header-ca.key"];
    filepath_Join [dataDir; "tls"; "service.key"];
    filepath_Join [dataDir; "tls"; "client-admin.crt"];
    filepath_Join [dataDir; "tls"; "client-admin.key"];
    filepath_Join [dataDir; "tls"; "client-controller.crt"];
    filepath_Join [dataDir; "tls"; "client-controller.key"];
    filepath_Join [dataDir; "tls"; "client-cloud-controller.crt"];
    filepath_Join [dataDir; "tls"; "client-cloud-controller.key"];
    filepath_Join [dataDir; "tls"; "client-scheduler.crt"];
    filepath_Join [dataDir; "tls"; "client-scheduler.key"];
    filepath_Join [dataDir; "tls"; "client-kube-apiserver.crt"];
    filepath_Join [dataDir; "tls"; "client-kube-apiserver.key"];
    filepath_Join [dataDir; "tls"; "client-kube-proxy.crt"];
    filepath_Join [dataDir; "tls"; "client-kube-proxy.key"];
    filepath_Join [dataDir; "tls";
                   "client-" ++ version_Program X ++ "-controller.crt"];
    filepath_Join [dataDir; "tls";
                   "client-" ++ version_Program X ++ "-controller.key"];
    filepath_Join [dataDir; "tls"; "serving-kube-apiserver.crt"];
    filepath_Join [dataDir; "tls"; "serving-kube-apiserver.key"];
    filepath_Join [dataDir; "tls"; "client-kubelet.key"];
    filepath_Join [dataDir; "tls"; "serving-kubelet.key"];
    filepath_Join [dataDir; "tls"; "serving-kubelet.key"];
    filepath_Join [dataDir; "tls"; "client-auth-proxy.key"];
    filepath_Join [dataDir; "tls"; "etcd"; "server-ca.crt"];
    filepath_Join [dataDir; "tls"; "etcd"; "server-ca.key"];
    filepath_Join [dataDir; "tls"; "etcd"; "peer-ca.crt"];
    filepath_Join [dataDir; "tls"; "etcd"; "peer-ca.key"];
    filepath_Join [dataDir; "tls"; "etcd"; "server-client.crt"];
    filepath_Join [dataDir; "tls"; "etcd"; "server-client.key"];
    filepath_Join [dataDir; "tls"; "etcd"; "peer-server-client.crt"];
    filepath_Join [dataDir; "tls"; "etcd"; "peer-server-client.key"];
    filepath_Join [dataDir; "tls"; "etcd"; "client.crt"];
    filepath_Join [dataDir; "tls"; "etcd"; "client.key"] ].

(** The loop [for _, cert := range certs { os.Remove(cert) }], every
    error dropped.  It runs inside the driver's [Reset], so it acts on the
    world directly. *)
Definition cleanCerts (c : Cluster) (w : World) : World :=
  fold_left (fun w' cert => snd (fs_Remove cert w'))
            (certFiles (DataDir (config c))) w.

(** *** start *)

Definition resetDoneError (resetFile : string) : error :=
  Errorf ("cluster-reset was successfully performed, please remove the cluster-reset flag and start "
          ++ version_Program X
          ++ " normally, if you need to perform another cluster reset, you must first manually delete the "
          ++ resetFile ++ " file").

(** The body of [if c.config.ClusterReset { ... }]: [Some err] when it
    returns [err] from [start], [None] when control falls out of it. *)
Definition resetBranch (c : Cluster) (d : Driver) (resetFile : string)
  : M (option error) :=
  statErr <- os_Stat resetFile ;;
  match statErr with
  | Some err =>
      if negb (os_IsNotExist err) then ret (Some err)
      else
        let rebootstrap := storageBootstrap X c in
        call (CallReset d) (Reset d rebootstrap (cleanCerts c))
  | None => ret (Some (resetDoneError resetFile))
  end.

Definition start (c : Cluster) : M (option error) :=
  let resetFile := etcd_ResetFile X (config c) in
  match managedDB c with
  | None => ret None
  | Some d =>
      early <- (if ClusterReset (config c)
                then resetBranch c d resetFile
                else ret None) ;;
      match early with
      | Some err => ret (Some err)
      | None =>
          os_Remove resetFile ;;;
          call (CallStart d) (Start d (clientAccessInfo c))
      end
  end.

(** *** initClusterDB *)

Definition initClusterDB (c : Cluster) (handler : Handler)
  : M (Cluster * (Handler * option error)) :=
  match managedDB c with
  | None => ret (c, (handler, None))
  | Some d =>
      let c' :=
        if negb (strings_HasPrefix (Endpoint (Datastore (config c)))
                                   (EndpointName d ++ "://"))
        then set_config c (set_Datastore (config c)
                             (EndpointConfig_only (EndpointName d)))
        else c in
      r <- call (CallRegister d) (Register d (config c') handler) ;;
      ret (c', r)
  end.

(** *** assignManagedDriver *)

(** How the first loop over the registry ends. *)
Inductive Scan : Type :=
| ScanError (err : error)
| ScanFound (d : Driver)
| ScanNone.

(** [for _, driver := range managed.Registered()] with the
    [IsInitialized] test: stops at the first error or the first
    initialized driver. *)
Fixpoint scanInitialized (cfg : Config) (drivers : list Driver) : M Scan :=
  match drivers with
  | [] => ret ScanNone
  | driver :: rest =>
      r <- call (CallIsInitialized driver) (IsInitialized driver cfg) ;;
      match r with
      | (_, Some err) => ret (ScanError err)
      | (true, None) => ret (ScanFound driver)
      | (false, None) => scanInitialized cfg rest
      end
  end.

(** [strings.SplitN(c.config.Datastore.Endpoint, ":", 2)[0]] *)
Definition endpointType (cfg : Config) : string :=
  hd "" (strings_SplitN2 (Endpoint (Datastore cfg)) colon).

(** The guard of the default-driver branch. *)
Definition wantsDefault (cfg : Config) : bool :=
  (Endpoint (Datastore cfg) =? "")
  && (ClusterInit cfg
      || (negb (Token cfg =? "") && negb (JoinURL cfg =? ""))).

Definition assignManagedDriver (c : Cluster) : M (Cluster * option error) :=
  let cfg := config c in
  scan <- scanInitialized cfg (managed_Registered X) ;;
  match scan with
  | ScanError err => ret (c, Some err)
  | ScanFound driver => ret (set_managedDB c driver, None)
  | ScanNone =>
      match find (fun driver => endpointType cfg =? EndpointName driver)
                 (managed_Registered X) with
      | Some driver => ret (set_managedDB c driver, None)
      | None =>
          if wantsDefault cfg then
            match find (fun driver =>
                          EndpointName driver =? managed_Default X)
                       (managed_Registered X) with
            | Some driver => ret (set_managedDB c driver, None)
            | None => ret (c, None)
            end
          else ret (c, None)
      end
  end.

(** *** testClusterDB *)

(** Which case of the [select] after a failed test is taken. *)
Inductive SelectCase : Type :=
| TimerFired
| CtxDone.

(** What the environment answers in one iteration of the probing loop: the
    error of [c.managedDB.Test(ctx)] and, when the test failed, the case of
    the [select] that wakes the task. *)
Record Round : Type := mkRound {
  testErr : option error;
  woken : SelectCase
}.

(** The background task is either still inside its loop (waiting for the
    next answer) or has returned. *)
Inductive Task : Type :=
| NotStarted
| Running
| Returned.

Inductive Chan : Type :=
| Open
| Closed.

Record Probe : Type := mkProbe {
  result : Chan;
  task : Task;
  probeTrace : list Event
}.

Definition retryWaitSeconds : nat := 5.

(** What an iteration records when [Test] fails with [err]: the call, the
    log line, and the timer armed by the [select]. *)
Definition failedTest (d : Driver) (err : error) : list Event :=
  [ CallTest d;
    LogInfo ("Failed to test data store connection: " ++ error_string err);
    TimeAfter retryWaitSeconds ].

(** The [for] loop of the task: the recorded calls, and whether the loop
    was left by a [return]. *)
Fixpoint probeLoop (d : Driver) (script : list Round) : list Event * Task :=
  match script with
  | [] => ([], Running)
  | r :: rest =>
      match testErr r with
      | Some err =>
          let now := failedTest d err in
          match woken r with
          | TimerFired =>
              let (later, t) := probeLoop d rest in ((now ++ later)%list, t)
          | CtxDone => (now, Returned)
          end
      | None =>
          ([ CallTest d;
             LogInfo (EndpointName d ++ " data store connection OK") ],
           Returned)
      end
  end.

(** The task body: [defer close(result)] runs when the loop returns. *)
Definition probeTask (d : Driver) (script : list Round) : Probe :=
  let (tr, t) := probeLoop d script in
  match t with
  | Returned => mkProbe Closed Returned (tr ++ [CloseResult])%list
  | _ => mkProbe Open t tr
  end.

(** [testClusterDB], observed after the environment has given the answers
    of [script] to the background task. *)
Definition testClusterDB (c : Cluster) (script : list Round)
  : Probe * option error :=
  match managedDB c with
  | None => (mkProbe Closed NotStarted [CloseResult], None)
  | Some d => (probeTask d script, None)
  end.

(** *** setupEtcdProxy *)

(** Modelled from the spec: the routing proxy [etcd.Proxy], whose source is
    not part of this file.  It holds an address set, and
    [Update(addresses)] replaces that set. *)
Record Proxy : Type := mkProxy {
  addresses : list string
}.

Definition Proxy_Update (newAddresses : list string) (p : Proxy) : Proxy :=
  mkProxy newAddresses.

Definition tickerSeconds : nat := 30.

(** One iteration of [for range t.C], given the answer of
    [c.managedDB.GetMembersClientURLs(ctx)]. *)
Definition proxyCycle (d : Driver) (answer : list string * option error)
  (p : Proxy) : Proxy * list Event :=
  let (newAddresses, err) := answer in
  match err with
  | Some e =>
      (p, [ CallGetMembersClientURLs d;
            LogWarn ("failed to get etcd client URLs: " ++ error_string e) ])
  | None =>
      (Proxy_Update newAddresses p,
       [ CallGetMembersClientURLs d; ProxyUpdate newAddresses ])
  end.

Fixpoint proxyLoop (d : Driver) (ticks : list (list string * option error))
  (p : Proxy) : Proxy * list Event :=
  match ticks with
  | [] => (p, [])
  | answer :: rest =>
      let (p1, now) := proxyCycle d answer p in
      let (p2, later) := proxyLoop d rest p1 in
      (p2, (now ++ later)%list)
  end.

(** [setupEtcdProxy], observed after the ticks of [ticks]. *)
Definition setupEtcdProxy (c : Cluster) (etcdProxy : Proxy)
  (ticks : list (list string * option error)) : Proxy * list Event :=
  match managedDB c with
  | None => (etcdProxy, [])
  | Some d =>
      let (p, tr) := proxyLoop d ticks etcdProxy in
      (p, NewTicker tickerSeconds :: tr)
  end.

(** ** Vocabulary of the properties *)

(** Probing [drivers] in order from the world [w], every [IsInitialized]
    answers "not initialized" without error; the world that results. *)
Fixpoint allUninitialized (cfg : Config) (drivers : list Driver) (w : World)
  : option World :=
  match drivers with
  | [] => Some w
  | d :: rest =>
      match IsInitialized d cfg w with
      | ((false, None), w') => allUninitialized cfg rest w'
      | _ => None
      end
  end.

(** [name] is the part of [s] before its first colon (all of [s] when it
    has no colon). *)
Definition beforeFirstColon (s name : string) : Prop :=
  has_byte colon name = false
  /\ (s = name \/ exists rest, s = name ++ String colon rest).

(** [d] is the first driver of the registry named [name]. *)
Definition firstNamed (name : string) (d : Driver) (registry : list Driver)
  : Prop :=
  exists pre post,
    registry = (pre ++ d :: post)%list
    /\ EndpointName d = name
    /\ Forall (fun d' => EndpointName d' <> name) pre.

(** A round in which the test fails and the retry timer fires. *)
Definition failedAndRetried (r : Round) : Prop :=
  testErr r <> None /\ woken r = TimerFired.

(** What a run of rounds records when every test in it fails. *)
Definition failedTests (d : Driver) (rounds : list Round) : list Event :=
  flat_map (fun r => match testErr r with
                     | Some err => failedTest d err
                     | None => []
                     end) rounds.

End Model.


Arguments ret {DB Handler AccessInfo A} a _.
Arguments bind {DB Handler AccessInfo A B} m k _.
Arguments call {DB Handler AccessInfo A} ev f _.
Arguments CloseResult {DB Handler AccessInfo}.
Arguments OsStat {DB Handler AccessInfo} path.
Arguments OsRemove {DB Handler AccessInfo} path.
Arguments ProxyUpdate {DB Handler AccessInfo} addresses.
Arguments TimeAfter {DB Handler AccessInfo} seconds.
Arguments NewTicker {DB Handler AccessInfo} seconds.
Arguments LogInfo {DB Handler AccessInfo} msg.
Arguments LogWarn {DB Handler AccessInfo} msg.
Arguments os_Stat {DB Handler AccessInfo} p _.
Arguments os_Remove {DB Handler AccessInfo} p _.
Arguments fs_Stat {DB} p w.
Arguments fs_Remove {DB} p w.
Arguments is_CallReset {DB Handler AccessInfo} ev.
Arguments is_CallStart {DB Handler AccessInfo} ev.
Arguments is_CallIsInitialized {DB Handler AccessInfo} ev.
Arguments is_CallTest {DB Handler AccessInfo} ev.
Arguments is_OsRemove {DB Handler AccessInfo} ev.
Arguments is_ProxyUpdate {DB Handler AccessInfo} ev.
Arguments is_CloseResult {DB Handler AccessInfo} ev.

Notation "x <- m ;; k" := (bind m (fun x => k))
  (at level 61, m at next level, right associativity).
Notation "m ;;; k" := (bind m (fun _ => k))
  (at level 61, right associativity).


(** ** Sample drivers and worlds *)

(** A file system with nothing in it, and one entry set. *)
Definition emptyFiles : string -> FileState := fun _ => Absent.

Definition withFile (p : string) (st : FileState) (fs : string -> FileState)
  : string -> FileState :=
  fun q => if q =? p then st else fs q.

Definition sampleMarker : string := "/var/lib/k3s/server/db/reset-flag".

(** A driver over a datastore that is a counter of its starts; handlers
    are lists of routes. *)
Definition etcdDriver : Driver nat (list string) string :=
  mkDriver "etcd"
    (fun cfg w =>
       ((match files w (filepath_Join [DataDir cfg; "db"; "etcd"]) with
         | Present => true
         | _ => false
         end, None), w))
    (fun _ w => (None, mkWorld (files w) (S (db w))))
    (fun rebootstrap cleanCerts w =>
       let (err, w1) := rebootstrap (cleanCerts w) in
       (err, mkWorld (withFile sampleMarker Present (files w1)) 0))
    (fun cfg handler w =>
       ((("/db/info -> " ++ Endpoint (Datastore cfg)) :: handler, None), w)).

(** A driver that is never initialized and does nothing. *)
Definition idleDriver : Driver nat (list string) string :=
  mkDriver "sqlite"
    (fun _ w => ((false, None), w))
    (fun _ w => (None, w))
    (fun _ _ w => (None, w))
    (fun _ handler w => ((handler, None), w)).

(** A driver whose disk probe and reset fail. *)
Definition brokenDriver : Driver nat (list string) string :=
  mkDriver "dqlite"
    (fun _ w => ((false, Some (Errorf "disk unreadable")), w))
    (fun _ w => (None, w))
    (fun _ _ w => (Some (Errorf "reset failed"), w))
    (fun _ handler w => ((handler, Some (Errorf "no routes")), w)).

Definition sampleImports (registry : list (Driver nat (list string) string))
  : Imports nat (list string) string :=
  mkImports (fun cfg => filepath_Join [DataDir cfg; "db"; "reset-flag"])
            "k3s" registry "etcd" (fun _ w => (None, w)).

Definition sampleConfig (endpoint : string) (init reset : bool) : Config :=
  mkConfig "/var/lib/k3s/server"
           (mkEndpointConfig "unix://kine.sock" endpoint "ca" "cert" "key")
           init reset "" "".

Definition sampleCluster (d : option (Driver nat (list string) string))
  (cfg : Config) : Cluster nat (list string) string :=
  mkCluster d cfg "admin".

Definition sampleSys (fs : string -> FileState) : Sys nat (list string) string :=
  mkSys (mkWorld fs 0) [].

(** Two registries, two states of the disk, and clusters asked to reset,
    to start normally, and to resolve a driver. *)
Definition registry2 : Imports nat (list string) string :=
  sampleImports [idleDriver; etcdDriver].

Definition registry3 : Imports nat (list string) string :=
  sampleImports [idleDriver; etcdDriver; brokenDriver].

Definition registryBroken : Imports nat (list string) string :=
  sampleImports [idleDriver; brokenDriver; etcdDriver].

Definition registryNoDefault : Imports nat (list string) string :=
  sampleImports [idleDriver].

Definition clean : Sys nat (list string) string := sampleSys emptyFiles.

Definition marked : Sys nat (list string) string :=
  sampleSys (withFile sampleMarker Present emptyFiles).

Definition initialized : Sys nat (list string) string :=
  sampleSys (withFile "/var/lib/k3s/server/db/etcd" Present emptyFiles).

Definition resetting (d : Driver nat (list string) string)
  : Cluster nat (list string) string :=
  sampleCluster (Some d) (sampleConfig "" false true).

Definition starting (d : Driver nat (list string) string)
  : Cluster nat (list string) string :=
  sampleCluster (Some d) (sampleConfig "" false false).

Definition unbound (endpoint : string) (init : bool)
  : Cluster nat (list string) string :=
  sampleCluster None (sampleConfig endpoint init false).

Definition refused : error := Errorf "connection refused".

(** A driver whose reset succeeds and leaves the marker where it cannot be
    removed (the data directory is mounted read-only once reset is done). *)
Definition stickyDriver : Driver nat (list string) string :=
  mkDriver "etcd"
    (fun _ w => ((false, None), w))
    (fun _ w => (None, mkWorld (files w) (S (db w))))
    (fun _ _ w =>
       (None,
        mkWorld (withFile sampleMarker (Undeletable "read-only file system")
                          (files w)) 0))
    (fun _ handler w => ((handler, None), w)).

(** A disk on which the marker of an earlier reset exists and cannot be
    removed. *)
Definition stuck : Sys nat (list string) string :=
  sampleSys (withFile sampleMarker (Undeletable "read-only file system")
                      emptyFiles).


(** ** Further vocabulary *)

Definition is_CallGetMembersClientURLs {DB Handler AccessInfo : Type}
  (ev : Event DB Handler AccessInfo) : bool :=
  match ev with CallGetMembersClientURLs _ => true | _ => false end.

Definition is_TimeAfter {DB Handler AccessInfo : Type}
  (ev : Event DB Handler AccessInfo) : bool :=
  match ev with TimeAfter _ => true | _ => false end.

Definition is_NewTicker {DB Handler AccessInfo : Type}
  (ev : Event DB Handler AccessInfo) : bool :=
  match ev with NewTicker _ => true | _ => false end.

Definition is_CallRegister {DB Handler AccessInfo : Type}
  (ev : Event DB Handler AccessInfo) : bool :=
  match ev with CallRegister _ => true | _ => false end.

Definition is_OsStat {DB Handler AccessInfo : Type}
  (ev : Event DB Handler AccessInfo) : bool :=
  match ev with OsStat _ => true | _ => false end.

(** What [os.Remove] leaves at a path that held [st]. *)
Definition removed (st : FileState) : FileState :=
  match st with
  | Present => Absent
  | other => other
  end.


(** An answer of [GetMembersClientURLs] that carries an error. *)
Definition failedAnswer (answer : list string * option error) : Prop :=
  snd answer <> None.

(** A disk on which the marker cannot be reached, and one that holds a
    client certificate and the marker. *)
Definition locked : Sys nat (list string) string :=
  sampleSys (withFile sampleMarker (Unreachable "permission denied")
                      emptyFiles).

Definition sampleCert : string := "/var/lib/k3s/server/tls/client-ca.crt".

Definition certified : World nat :=
  mkWorld (withFile sampleCert Present
             (withFile sampleMarker Present emptyFiles)) 7.

(** * Properties *)

Unset Implicit Arguments.

Section Properties.

Context {DB Handler AccessInfo : Type}.
Variable X : Imports DB Handler AccessInfo.

Implicit Types (c : Cluster DB Handler AccessInfo)
               (d : Driver DB Handler AccessInfo)
               (s : Sys DB Handler AccessInfo)
               (w : World DB)
               (tr : list (Event DB Handler AccessInfo)).

(** ** Counting calls *)

Lemma calls_app (kind : Event DB Handler AccessInfo -> bool) tr1 tr2 :
  calls kind (tr1 ++ tr2) = calls kind tr1 + calls kind tr2.
Proof.
  unfold calls. rewrite filter_app, length_app. reflexivity.
Qed.

Lemma calls_cons (kind : Event DB Handler AccessInfo -> bool) ev tr :
  calls kind (ev :: tr) = (if kind ev then 1 else 0) + calls kind tr.
Proof.
  unfold calls. simpl. destruct (kind ev); reflexivity.
Qed.

(** Settles a count of calls over a trace that ends in known events. *)
Ltac count_calls :=
  rewrite ?calls_app; unfold calls; simpl; lia.

(** ** The file system *)

(** A removal that succeeds, or that finds nothing to remove, leaves
    nothing at the path. *)
Lemma fs_Remove_clears p w :
  (forall e, fst (fs_Remove p w) = Some e -> os_IsNotExist e = true) ->
  fs_Stat p (snd (fs_Remove p w)) = Some (ErrNotExist p).
Proof.
  intros Hgone. unfold fs_Remove, fs_Stat in *.
  destruct (files w p) as [ | | m | m] eqn:E; cbn [fst snd files] in *.
  - rewrite E. reflexivity.
  - rewrite String.eqb_refl. reflexivity.
  - specialize (Hgone (Errorf m) eq_refl). discriminate Hgone.
  - specialize (Hgone (Errorf m) eq_refl). discriminate Hgone.
Qed.

(** A removal that fails leaves the world as it was. *)
Lemma fs_Remove_failed p w e :
  fst (fs_Remove p w) = Some e -> snd (fs_Remove p w) = w.
Proof.
  unfold fs_Remove. destruct (files w p); cbn [fst snd];
    [reflexivity | discriminate | reflexivity | reflexivity].
Qed.

(** ** start *)

(** The shared tail of [start]: remove the marker, then [Start]. *)
Lemma start_tail c d s :
  (os_Remove (etcd_ResetFile X (config c)) ;;;
   call (CallStart d) (Start d (clientAccessInfo c))) s
  = let f := etcd_ResetFile X (config c) in
    let w2 := snd (fs_Remove f (world s)) in
    let r := Start d (clientAccessInfo c) w2 in
    (fst r, mkSys (snd r) (trace s ++ [OsRemove f; CallStart d])).
Proof.
  unfold bind, os_Remove, call. cbn zeta.
  destruct (fs_Remove _ (world s)) as [e w2]. simpl.
  destruct (Start d _ w2) as [r w3]. simpl.
  rewrite <- app_assoc. reflexivity.
Qed.

(** C1. With a driver bound, cluster-reset requested and the reset marker
    present (its stat succeeds), [start] returns the error that tells the
    operator to remove the cluster-reset flag or delete the marker by hand;
    it only stats the marker, leaves the world as it was, and calls neither
    [Reset] nor [Start]. *)
Theorem start_marker_present_rejects c d s :
  managedDB c = Some d ->
  ClusterReset (config c) = true ->
  fs_Stat (etcd_ResetFile X (config c)) (world s) = None ->
  let f := etcd_ResetFile X (config c) in
  let r := start X c s in
  fst r = Some (resetDoneError X f)
  /\ snd r = mkSys (world s) (trace s ++ [OsStat f])
  /\ calls is_CallReset (trace (snd r)) = calls is_CallReset (trace s)
  /\ calls is_CallStart (trace (snd r)) = calls is_CallStart (trace s).
Proof.
  intros Hd Hreset Hstat f r. subst f r.
  unfold start. rewrite Hd, Hreset.
  unfold bind at 1. unfold resetBranch, bind, os_Stat, call. simpl.
  rewrite Hstat. simpl.
  split; [reflexivity|]. split; [reflexivity|].
  split; count_calls.
Qed.

(** C3 (amended). With a driver bound, cluster-reset requested, the marker
    absent and the driver's [Reset] returning no error, [start] stats the
    marker, calls [Reset] once, then calls [os.Remove] on the marker and
    drops its error, then calls [Start] once on the world the removal
    leaves, in that order, and returns what [Start] returns.  When the
    removal does not fail (it succeeds, or finds the marker already gone),
    a stat of the marker after it fails with "not exist"; when it fails,
    the world [Reset] left is the one [Start] runs in. *)
Theorem start_reset_then_remove_then_start c d s w1 :
  managedDB c = Some d ->
  ClusterReset (config c) = true ->
  files (world s) (etcd_ResetFile X (config c)) = Absent ->
  Reset d (storageBootstrap X c) (cleanCerts X c) (world s) = (None, w1) ->
  let f := etcd_ResetFile X (config c) in
  let removal := fs_Remove f w1 in
  let started := Start d (clientAccessInfo c) (snd removal) in
  let r := start X c s in
  r = (fst started,
       mkSys (snd started)
             (trace s ++ [OsStat f; CallReset d; OsRemove f; CallStart d]))
  /\ calls is_CallReset (trace (snd r)) = calls is_CallReset (trace s) + 1
  /\ calls is_CallStart (trace (snd r)) = calls is_CallStart (trace s) + 1
  /\ ((forall e, fst removal = Some e -> os_IsNotExist e = true) ->
      fs_Stat f (snd removal) = Some (ErrNotExist f))
  /\ (forall e, fst removal = Some e -> snd removal = w1).
Proof.
  intros Hd Hreset Habsent HR f removal started r.
  assert (Hr : r = (fst started,
       mkSys (snd started)
             (trace s ++ [OsStat f; CallReset d; OsRemove f; CallStart d]))).
  { subst r started removal f. unfold start. rewrite Hd, Hreset.
    unfold bind at 1. unfold resetBranch.
    unfold bind at 1. unfold os_Stat at 1. unfold call at 1.
    unfold fs_Stat. rewrite Habsent. cbn [os_IsNotExist negb].
    unfold call at 1. cbn [world trace]. rewrite HR.
    rewrite start_tail. cbn [world trace].
    rewrite <- !app_assoc. reflexivity. }
  split; [exact Hr|].
  rewrite Hr. cbn [snd trace].
  split; [count_calls|]. split; [count_calls|]. split.
  - intros Hgone. subst removal. apply fs_Remove_clears. exact Hgone.
  - intros e He. subst removal. exact (fs_Remove_failed f w1 e He).
Qed.

(** C9 (amended). With a driver bound and cluster-reset not requested,
    [start] calls [os.Remove] on the marker and then [Start], with no stat
    and no [Reset]; the error of the removal is dropped.  When the removal
    succeeds the marker is gone in the world [Start] runs in; when it fails
    that world is the one [start] was called in, marker included. *)
Theorem start_without_reset_removes_marker c d s :
  managedDB c = Some d ->
  ClusterReset (config c) = false ->
  let f := etcd_ResetFile X (config c) in
  let removal := fs_Remove f (world s) in
  let started := Start d (clientAccessInfo c) (snd removal) in
  start X c s
  = (fst started,
     mkSys (snd started) (trace s ++ [OsRemove f; CallStart d]))
  /\ (fst removal = None ->
      fs_Stat f (world s) = None
      /\ fs_Stat f (snd removal) = Some (ErrNotExist f))
  /\ (forall e, fst removal = Some e -> snd removal = world s).
Proof.
  intros Hd Hreset f removal started. split; [|split].
  - unfold start. rewrite Hd, Hreset.
    unfold bind at 1. unfold ret at 1. fold f.
    unfold f. rewrite start_tail. reflexivity.
  - intros Hok. split.
    + subst removal. unfold fs_Remove, fs_Stat in *.
      destruct (files (world s) f); cbn [fst] in Hok;
        [discriminate | reflexivity | discriminate | discriminate].
    + subst removal. apply fs_Remove_clears.
      intros e He. rewrite Hok in He. discriminate He.
  - intros e He. subst removal. exact (fs_Remove_failed f (world s) e He).
Qed.

(** ** Strings *)

Lemma cut_none (ch : ascii) (str : string) :
  has_byte ch str = false -> cut ch str = None.
Proof.
  induction str as [ | a rest IH]; simpl; intros H; [reflexivity|].
  apply orb_false_iff in H. destruct H as [Ha Hrest].
  rewrite Ha, (IH Hrest). reflexivity.
Qed.

Lemma cut_before (ch : ascii) (before after : string) :
  has_byte ch before = false ->
  cut ch (before ++ String ch after) = Some (before, after).
Proof.
  induction before as [ | a rest IH]; simpl; intros H.
  - rewrite Ascii.eqb_refl. reflexivity.
  - apply orb_false_iff in H. destruct H as [Ha Hrest].
    rewrite Ha, (IH Hrest). reflexivity.
Qed.

(** [endpointType] is the part of the endpoint before its first colon. *)
Lemma endpointType_beforeFirstColon (cfg : Config) (name : string) :
  beforeFirstColon (Endpoint (Datastore cfg)) name ->
  endpointType cfg = name.
Proof.
  intros [Hno [Heq | [rest Heq]]]; unfold endpointType, strings_SplitN2;
    rewrite Heq.
  - rewrite (cut_none _ _ Hno). reflexivity.
  - rewrite (cut_before _ _ rest Hno). reflexivity.
Qed.

(** ** The registry loops *)

Lemma find_name_sym name (registry : list (Driver DB Handler AccessInfo)) :
  find (fun d' => EndpointName d' =? name) registry
  = find (fun d' => name =? EndpointName d') registry.
Proof.
  induction registry as [ | d0 rest IH]; simpl; [reflexivity|].
  rewrite (String.eqb_sym (EndpointName d0) name), IH. reflexivity.
Qed.

Lemma find_firstNamed_l name d (registry : list (Driver DB Handler AccessInfo)) :
  firstNamed name d registry ->
  find (fun d' => name =? EndpointName d') registry = Some d.
Proof.
  intros (pre & post & -> & Hname & Hpre).
  induction Hpre as [ | d0 pre Hd0 _ IH]; simpl.
  - rewrite Hname, String.eqb_refl. reflexivity.
  - destruct (String.eqb_spec name (EndpointName d0)) as [E | _].
    + exfalso. apply Hd0. symmetry. exact E.
    + exact IH.
Qed.

Lemma find_firstNamed_r name d (registry : list (Driver DB Handler AccessInfo)) :
  firstNamed name d registry ->
  find (fun d' => EndpointName d' =? name) registry = Some d.
Proof.
  intros H. rewrite find_name_sym. apply find_firstNamed_l. exact H.
Qed.

Lemma find_unnamed_l name (registry : list (Driver DB Handler AccessInfo)) :
  Forall (fun d' => EndpointName d' <> name) registry ->
  find (fun d' => name =? EndpointName d') registry = None.
Proof.
  induction 1 as [ | d0 rest Hd0 _ IH]; simpl; [reflexivity|].
  destruct (String.eqb_spec name (EndpointName d0)) as [E | _].
  - exfalso. apply Hd0. symmetry. exact E.
  - exact IH.
Qed.

Lemma find_unnamed_r name (registry : list (Driver DB Handler AccessInfo)) :
  Forall (fun d' => EndpointName d' <> name) registry ->
  find (fun d' => EndpointName d' =? name) registry = None.
Proof.
  intros H. rewrite find_name_sym. apply find_unnamed_l. exact H.
Qed.

(** Drivers that answer "not initialized" are probed one after the other
    and the scan goes on behind them. *)
Lemma scanInitialized_skip cfg pre rest : forall s w1,
  allUninitialized cfg pre (world s) = Some w1 ->
  scanInitialized cfg (pre ++ rest) s
  = scanInitialized cfg rest
      (mkSys w1 (trace s ++ map (@CallIsInitialized _ _ _) pre)).
Proof.
  induction pre as [ | d0 pre IH]; intros s w1 Hall; simpl in Hall |- *.
  - injection Hall as <-. rewrite app_nil_r. destruct s; reflexivity.
  - unfold bind at 1. unfold call at 1.
    destruct (IsInitialized d0 cfg (world s)) as [[ok err] w'] eqn:E.
    destruct ok; [discriminate|]. destruct err; [discriminate|].
    rewrite (IH (mkSys w' (trace s ++ [CallIsInitialized d0])) w1 Hall).
    cbn [world trace]. rewrite <- app_assoc. reflexivity.
Qed.

Lemma scanInitialized_none cfg registry s w1 :
  allUninitialized cfg registry (world s) = Some w1 ->
  scanInitialized cfg registry s
  = (ScanNone _ _ _,
     mkSys w1 (trace s ++ map (@CallIsInitialized _ _ _) registry)).
Proof.
  intros Hall.
  rewrite <- (app_nil_r registry) at 1.
  rewrite (scanInitialized_skip _ _ [] _ _ Hall). reflexivity.
Qed.

Lemma scanInitialized_stop cfg pre d post s w1 r w2 :
  allUninitialized cfg pre (world s) = Some w1 ->
  IsInitialized d cfg w1 = (r, w2) ->
  r <> (false, None) ->
  scanInitialized cfg (pre ++ d :: post) s
  = (match r with
     | (_, Some err) => ScanError _ _ _ err
     | _ => ScanFound d
     end,
     mkSys w2 (trace s ++ map (@CallIsInitialized _ _ _) (pre ++ [d]))).
Proof.
  intros Hall Hd Hr.
  rewrite (scanInitialized_skip _ _ (d :: post) _ _ Hall). simpl.
  unfold bind, call. cbn [world trace]. rewrite Hd.
  rewrite map_app, app_assoc. simpl.
  destruct r as [[ | ] [err | ]]; try reflexivity.
  exfalso. apply Hr. reflexivity.
Qed.

Lemma wantsDefault_true (cfg : Config) :
  wantsDefault cfg = true <->
  Endpoint (Datastore cfg) = ""
  /\ (ClusterInit cfg = true \/ (Token cfg <> "" /\ JoinURL cfg <> "")).
Proof.
  unfold wantsDefault.
  rewrite andb_true_iff, orb_true_iff, andb_true_iff, !negb_true_iff.
  rewrite String.eqb_eq, !String.eqb_neq. reflexivity.
Qed.

(** ** assignManagedDriver *)

(** C4. The resolver probes the registry in order: when a driver answers
    "initialized" after every driver before it answered "not initialized",
    it is bound, and the drivers behind it are not probed.  When every
    driver answers "not initialized", the first driver whose endpoint name
    is the part of the configured endpoint before its first colon is
    bound. *)
Theorem assign_initialized_first_then_endpoint c s :
  let cfg := config c in
  (forall pre d post w1 w2,
      managed_Registered X = (pre ++ d :: post)%list ->
      allUninitialized cfg pre (world s) = Some w1 ->
      IsInitialized d cfg w1 = ((true, None), w2) ->
      assignManagedDriver X c s
      = ((set_managedDB c d, None),
         mkSys w2 (trace s ++ map (@CallIsInitialized _ _ _) (pre ++ [d]))))
  /\ (forall w1 name d,
      allUninitialized cfg (managed_Registered X) (world s) = Some w1 ->
      beforeFirstColon (Endpoint (Datastore cfg)) name ->
      firstNamed name d (managed_Registered X) ->
      assignManagedDriver X c s
      = ((set_managedDB c d, None),
         mkSys w1 (trace s ++ map (@CallIsInitialized _ _ _)
                                  (managed_Registered X)))).
Proof.
  intros cfg. split.
  - intros pre d post w1 w2 Hreg Hall Hd.
    unfold assignManagedDriver, bind. fold cfg. rewrite Hreg.
    rewrite (scanInitialized_stop _ _ _ post _ _ _ _ Hall Hd) by discriminate.
    reflexivity.
  - intros w1 name d Hall Hname Hfirst.
    unfold assignManagedDriver, bind. fold cfg.
    rewrite (scanInitialized_none _ _ _ _ Hall).
    rewrite (endpointType_beforeFirstColon _ _ Hname).
    rewrite (find_firstNamed_l _ _ _ Hfirst). reflexivity.
Qed.

(** C5. When a driver's [IsInitialized] returns an error after every
    driver before it answered "not initialized", the resolver returns that
    error, probes no further driver, and leaves the cluster as it was: no
    driver is bound by the call. *)
Theorem assign_fails_fast c s pre d post w1 ok err w2 :
  managed_Registered X = (pre ++ d :: post)%list ->
  allUninitialized (config c) pre (world s) = Some w1 ->
  IsInitialized d (config c) w1 = ((ok, Some err), w2) ->
  let r := assignManagedDriver X c s in
  r = ((c, Some err),
       mkSys w2 (trace s ++ map (@CallIsInitialized _ _ _) (pre ++ [d])))
  /\ managedDB (fst (fst r)) = managedDB c
  /\ (managedDB c = None -> managedDB (fst (fst r)) = None).
Proof.
  intros Hreg Hall Hd r.
  assert (Hr : r = ((c, Some err),
       mkSys w2 (trace s ++ map (@CallIsInitialized _ _ _) (pre ++ [d])))).
  { subst r. unfold assignManagedDriver, bind. rewrite Hreg.
    rewrite (scanInitialized_stop _ _ _ post _ _ _ _ Hall Hd) by discriminate.
    reflexivity. }
  rewrite Hr. simpl. auto.
Qed.

(** C6. When every driver answers "not initialized" and no driver is named
    like the endpoint type: if the endpoint is empty and cluster-init is
    requested or both a token and a join URL are given, the first driver
    named like the registry's default is bound (nothing is bound when the
    registry has no such driver); otherwise nothing is bound.  No error is
    returned in either case. *)
Theorem assign_default_or_none c s w1 :
  let cfg := config c in
  let bootstrap :=
    Endpoint (Datastore cfg) = ""
    /\ (ClusterInit cfg = true \/ (Token cfg <> "" /\ JoinURL cfg <> "")) in
  let s' := mkSys w1 (trace s ++ map (@CallIsInitialized _ _ _)
                                     (managed_Registered X)) in
  allUninitialized cfg (managed_Registered X) (world s) = Some w1 ->
  Forall (fun d' => EndpointName d' <> endpointType cfg)
         (managed_Registered X) ->
  (bootstrap ->
   (forall d, firstNamed (managed_Default X) d (managed_Registered X) ->
              assignManagedDriver X c s = ((set_managedDB c d, None), s'))
   /\ (Forall (fun d' => EndpointName d' <> managed_Default X)
              (managed_Registered X) ->
       assignManagedDriver X c s = ((c, None), s')))
  /\ (~ bootstrap -> assignManagedDriver X c s = ((c, None), s')).
Proof.
  intros cfg bootstrap s' Hall Hnomatch.
  assert (Hscan : assignManagedDriver X c s
                  = (if wantsDefault cfg then
                       match find (fun driver =>
                                     EndpointName driver =? managed_Default X)
                                  (managed_Registered X) with
                       | Some driver => ret (set_managedDB c driver, None)
                       | None => ret (c, None)
                       end
                     else ret (c, None)) s').
  { unfold assignManagedDriver, bind. fold cfg.
    rewrite (scanInitialized_none _ _ _ _ Hall).
    rewrite (find_unnamed_l _ _ Hnomatch). reflexivity. }
  rewrite Hscan. split.
  - intros Hboot. apply wantsDefault_true in Hboot. rewrite Hboot. split.
    + intros d Hfirst. rewrite (find_firstNamed_r _ _ _ Hfirst). reflexivity.
    + intros Hnone. rewrite (find_unnamed_r _ _ Hnone). reflexivity.
  - intros Hno. destruct (wantsDefault cfg) eqn:E; [|reflexivity].
    exfalso. apply Hno. apply wantsDefault_true. exact E.
Qed.

(** ** initClusterDB *)

Lemma prefix_app (p rest : string) : String.prefix p (p ++ rest) = true.
Proof.
  induction p as [ | a p IH]; simpl.
  - destruct rest; reflexivity.
  - destruct (Ascii.ascii_dec a a) as [_ | Hne]; [exact IH | contradiction].
Qed.

Lemma prefix_split (p : string) : forall str,
  String.prefix p str = true -> exists rest, str = p ++ rest.
Proof.
  induction p as [ | a p IH]; intros str H.
  - exists str. reflexivity.
  - destruct str as [ | b str]; simpl in H; [discriminate|].
    destruct (Ascii.ascii_dec a b) as [-> | _]; [|discriminate].
    destruct (IH str H) as [rest ->]. exists rest. reflexivity.
Qed.

(** [strings.HasPrefix(str, p)] holds exactly when [str] starts with [p]. *)
Lemma strings_HasPrefix_spec (str p : string) :
  strings_HasPrefix str p = true <-> exists rest, str = p ++ rest.
Proof.
  unfold strings_HasPrefix. split.
  - apply prefix_split.
  - intros [rest ->]. apply prefix_app.
Qed.

(** C8. Without a bound driver [initClusterDB] returns the handler and the
    cluster as they are, with no error and no call.  With a driver bound
    and a configured endpoint that does not start with the driver's
    endpoint name followed by "://", the datastore configuration is
    replaced by one holding only the driver's endpoint name, every other
    field empty, and [Register] is called once with that configuration; its
    handler and error are returned as they are.  When the endpoint has the
    prefix the configuration is kept. *)
Theorem initClusterDB_normalizes_then_registers c handler s :
  (managedDB c = None ->
   initClusterDB c handler s = ((c, (handler, None)), s))
  /\ (forall d,
      managedDB c = Some d ->
      ~ (exists rest,
            Endpoint (Datastore (config c)) = (EndpointName d ++ "://") ++ rest) ->
      let cfg' := set_Datastore (config c)
                                (EndpointConfig_only (EndpointName d)) in
      let reg := Register d cfg' handler (world s) in
      initClusterDB c handler s
      = ((set_config c cfg', fst reg),
         mkSys (snd reg) (trace s ++ [CallRegister d]))
      /\ Datastore cfg' = mkEndpointConfig "" (EndpointName d) "" "" "")
  /\ (forall d,
      managedDB c = Some d ->
      (exists rest,
          Endpoint (Datastore (config c)) = (EndpointName d ++ "://") ++ rest) ->
      let reg := Register d (config c) handler (world s) in
      initClusterDB c handler s
      = ((c, fst reg), mkSys (snd reg) (trace s ++ [CallRegister d]))).
Proof.
  split; [|split].
  - intros Hnone. unfold initClusterDB. rewrite Hnone. reflexivity.
  - intros d Hd Hno cfg' reg.
    split; [|reflexivity].
    unfold initClusterDB. rewrite Hd.
    destruct (strings_HasPrefix (Endpoint (Datastore (config c)))
                                (EndpointName d ++ "://")) eqn:E.
    + exfalso. apply Hno. apply strings_HasPrefix_spec. exact E.
    + cbn [negb]. unfold bind, call, ret. subst reg.
      cbn [config set_config]. fold cfg'.
      destruct (Register d cfg' handler (world s)) as [r w']. reflexivity.
  - intros d Hd Hyes reg.
    unfold initClusterDB. rewrite Hd.
    apply strings_HasPrefix_spec in Hyes. rewrite Hyes.
    cbn [negb]. unfold bind, call, ret. subst reg.
    destruct (Register d (config c) handler (world s)) as [r w'].
    reflexivity.
Qed.

(** ** setupEtcdProxy *)

Lemma proxyLoop_snoc d ticks : forall answer p,
  proxyLoop d (ticks ++ [answer]) p
  = let before := proxyLoop d ticks p in
    let cycle := proxyCycle d answer (fst before) in
    (fst cycle, (snd before ++ snd cycle)%list).
Proof.
  induction ticks as [ | a ticks IH]; intros answer p; simpl.
  - destruct (proxyCycle d answer p) as [p1 now]. simpl.
    rewrite app_nil_r. reflexivity.
  - destruct (proxyCycle d a p) as [p1 now].
    rewrite IH.
    destruct (proxyLoop d ticks p1) as [p2 later]. simpl.
    destruct (proxyCycle d answer p2) as [p3 last]. simpl.
    rewrite app_assoc. reflexivity.
Qed.

(** C7. In every cycle of the updater with a driver bound: when
    [GetMembersClientURLs] returns an error the proxy is left as it was and
    the cycle records the query and a warning, no [Update]; when it
    succeeds the cycle records the query and one [Update] with the list
    just returned, and the proxy's address set is that list. *)
Theorem proxy_cycle_fail_open c d etcdProxy ticks newAddresses err :
  managedDB c = Some d ->
  let before := setupEtcdProxy c etcdProxy ticks in
  let after := setupEtcdProxy c etcdProxy (ticks ++ [(newAddresses, err)]) in
  match err with
  | Some e =>
      fst after = fst before
      /\ snd after
         = (snd before
            ++ [ CallGetMembersClientURLs d;
                 LogWarn ("failed to get etcd client URLs: "
                          ++ error_string e) ])%list
      /\ calls is_ProxyUpdate (snd after) = calls is_ProxyUpdate (snd before)
  | None =>
      addresses (fst after) = newAddresses
      /\ snd after
         = (snd before
            ++ [ CallGetMembersClientURLs d; ProxyUpdate newAddresses ])%list
      /\ calls is_ProxyUpdate (snd after)
         = calls is_ProxyUpdate (snd before) + 1
  end.
Proof.
  intros Hd before after. subst before after.
  unfold setupEtcdProxy. rewrite Hd. rewrite proxyLoop_snoc.
  destruct (proxyLoop d ticks etcdProxy) as [p tr]. cbn [fst snd].
  destruct err as [e | ]; cbn [proxyCycle fst snd].
  - split; [reflexivity|]. split; [reflexivity|].
    rewrite app_comm_cons. count_calls.
  - split; [reflexivity|]. split; [reflexivity|].
    rewrite app_comm_cons. count_calls.
Qed.

(** ** testClusterDB *)

Lemma probeLoop_returned_calls d script :
  calls is_CloseResult (fst (probeLoop d script)) = 0.
Proof.
  induction script as [ | r rest IH]; simpl; [reflexivity|].
  destruct (testErr r) as [err | ]; [|reflexivity].
  destruct (woken r); [|reflexivity].
  destruct (probeLoop d rest) as [later t]. simpl in *.
  exact IH.
Qed.

(** The loop returns as soon as a test succeeds or the wait is cancelled. *)
Lemma probeLoop_returns d script :
  Exists (fun r => testErr r = None \/ woken r = CtxDone) script ->
  snd (probeLoop d script) = Returned.
Proof.
  induction 1 as [r rest Hr | r rest _ IH]; simpl.
  - destruct (testErr r) as [err | ]; [|reflexivity].
    destruct Hr as [Hr | Hr]; [discriminate|]. rewrite Hr. reflexivity.
  - destruct (testErr r) as [err | ]; [|reflexivity].
    destruct (woken r); [|reflexivity].
    destruct (probeLoop d rest) as [later t]. exact IH.
Qed.

(** Failed and retried rounds are gone through one by one. *)
Lemma probeLoop_retries d pre rest :
  Forall failedAndRetried pre ->
  probeLoop d (pre ++ rest)
  = ((failedTests d pre ++ fst (probeLoop d rest))%list,
     snd (probeLoop d rest)).
Proof.
  unfold failedTests.
  induction 1 as [ | r pre [Hfail Hwake] _ IH]; cbn [app flat_map].
  - destruct (probeLoop d rest); reflexivity.
  - cbn [probeLoop].
    destruct (testErr r) as [err | ] eqn:E; [|contradiction].
    rewrite Hwake, IH. cbn [fst snd].
    rewrite <- app_assoc. reflexivity.
Qed.

Lemma calls_failedTests d rounds :
  Forall (fun r => testErr r <> None) rounds ->
  calls is_CallTest (failedTests d rounds) = List.length rounds.
Proof.
  unfold failedTests.
  induction 1 as [ | r rounds Hfail _ IH]; cbn [flat_map length];
    [reflexivity|].
  destruct (testErr r) as [err | ]; [|contradiction].
  rewrite calls_app, IH. reflexivity.
Qed.

Lemma failedAndRetried_failed pre :
  Forall failedAndRetried pre -> Forall (fun r => testErr r <> None) pre.
Proof.
  intros H. eapply Forall_impl; [|exact H]. intros r [Hfail _]. exact Hfail.
Qed.

(** C10. [testClusterDB] returns a nil error whether or not a driver is
    bound.  Without a driver the channel is closed at once.  With a driver
    the background task returns as soon as a test succeeds or a wait is
    cancelled, and whenever the task has returned the channel has been
    closed, exactly once. *)
Theorem testClusterDB_nil_error_and_closed_on_return c script :
  let r := testClusterDB c script in
  snd r = None
  /\ (managedDB c = None -> result (fst r) = Closed)
  /\ (task (fst r) = Returned ->
      result (fst r) = Closed
      /\ calls is_CloseResult (probeTrace (fst r)) = 1)
  /\ (managedDB c <> None ->
      Exists (fun rd => testErr rd = None \/ woken rd = CtxDone) script ->
      task (fst r) = Returned).
Proof.
  intros r. subst r. unfold testClusterDB.
  destruct (managedDB c) as [d | ]; cbn [fst snd].
  - split; [reflexivity|]. split; [discriminate|].
    unfold probeTask.
    pose proof (probeLoop_returned_calls d script) as Hcalls.
    pose proof (probeLoop_returns d script) as Hret.
    destruct (probeLoop d script) as [tr t]. cbn [fst snd] in *.
    split.
    + destruct t; cbn [task result probeTrace]; try discriminate.
      intros _. split; [reflexivity|].
      rewrite calls_app, Hcalls. reflexivity.
    + intros _ Hex. rewrite (Hret Hex). reflexivity.
  - split; [reflexivity|]. split; [reflexivity|].
    split; [discriminate|]. intros Hne. exfalso. apply Hne. reflexivity.
Qed.

(** C2 (amended). With a driver bound, when every test so far has failed
    and the wait after the last failure is cancelled, the background task
    returns at once: it has called [Test] once per round, logged only
    failures, and, the close being deferred, it closes the readiness
    channel on its way out.  Answers that come later are not consulted. *)
Theorem probe_cancelled_during_wait_closes c d pre err rest :
  managedDB c = Some d ->
  Forall failedAndRetried pre ->
  let cancelled := mkRound (Some err) CtxDone in
  let p := fst (testClusterDB c (pre ++ cancelled :: rest)) in
  task p = Returned
  /\ result p = Closed
  /\ probeTrace p
     = (failedTests d (pre ++ [cancelled]) ++ [CloseResult])%list
  /\ calls is_CallTest (probeTrace p) = List.length pre + 1.
Proof.
  intros Hd Hpre cancelled p.
  assert (Hp : p = mkProbe Closed Returned
                     (failedTests d (pre ++ [cancelled]) ++ [CloseResult])).
  { subst p. unfold testClusterDB. rewrite Hd. cbn [fst].
    unfold probeTask. rewrite (probeLoop_retries d pre _ Hpre).
    subst cancelled. cbn [probeLoop testErr woken fst snd].
    unfold failedTests. rewrite flat_map_app. cbn [flat_map testErr].
    rewrite app_nil_r. reflexivity. }
  rewrite Hp. cbn [task result probeTrace].
  split; [reflexivity|]. split; [reflexivity|]. split; [reflexivity|].
  rewrite calls_app, calls_failedTests.
  - rewrite length_app. unfold calls. simpl. lia.
  - apply Forall_app. split; [apply failedAndRetried_failed; exact Hpre|].
    constructor; [discriminate | constructor].
Qed.

End Properties.

(** * The properties on sample runs *)

(** C1 on a node whose marker is left from an earlier reset. *)
Lemma start_marker_present_rejects_witness :
  let r := start registry2 (resetting etcdDriver) marked in
  fst r = Some (resetDoneError registry2 sampleMarker)
  /\ calls is_CallReset (trace (snd r)) = 0
  /\ calls is_CallStart (trace (snd r)) = 0.
Proof.
  destruct (start_marker_present_rejects registry2
              (resetting etcdDriver) etcdDriver marked
              eq_refl eq_refl eq_refl) as (Herr & _ & Hreset & Hstart).
  split; [exact Herr|]. split; [exact Hreset | exact Hstart].
Defined.

(** C3 as first stated fails in two ways.  When [Reset] itself fails, the
    marker is absent and reset is requested, yet the marker is not removed
    and [Start] is not called.  When [Reset] succeeds and leaves a marker
    that cannot be removed, the removal is attempted, its error is dropped,
    [Start] is called, and a stat of the marker still succeeds. *)
Lemma start_reset_failure_skips_start :
  (let c := resetting brokenDriver in
   let r := start registry2 c clean in
   managedDB c = Some brokenDriver
   /\ ClusterReset (config c) = true
   /\ fs_Stat (etcd_ResetFile registry2 (config c)) (world clean)
      = Some (ErrNotExist sampleMarker)
   /\ fst r = Some (Errorf "reset failed")
   /\ calls is_CallReset (trace (snd r)) = 1
   /\ calls is_OsRemove (trace (snd r)) = 0
   /\ calls is_CallStart (trace (snd r)) <> 1)
  /\ (let c := resetting stickyDriver in
      let r := start registry2 c clean in
      managedDB c = Some stickyDriver
      /\ ClusterReset (config c) = true
      /\ fs_Stat (etcd_ResetFile registry2 (config c)) (world clean)
         = Some (ErrNotExist sampleMarker)
      /\ fst r = None
      /\ trace (snd r)
         = [ OsStat sampleMarker; CallReset stickyDriver;
             OsRemove sampleMarker; CallStart stickyDriver ]
      /\ fs_Stat sampleMarker (world (snd r))
         <> Some (ErrNotExist sampleMarker)).
Proof.
  split.
  - vm_compute. repeat split; discriminate.
  - cbv zeta. split; [reflexivity|]. split; [reflexivity|].
    split; [reflexivity|]. split; [reflexivity|]. split; [reflexivity|].
    vm_compute. discriminate.
Qed.

(** C3 (amended) on a clean node: reset, removal and start in order, and
    the marker the driver wrote is gone when [Start] runs. *)
Lemma start_reset_then_remove_then_start_witness :
  let c := resetting etcdDriver in
  let w1 := snd (Reset etcdDriver (storageBootstrap registry2 c)
                       (cleanCerts registry2 c) (world clean)) in
  let r := start registry2 c clean in
  files w1 sampleMarker = Present
  /\ fst r = None
  /\ trace (snd r)
     = [ OsStat sampleMarker; CallReset etcdDriver;
         OsRemove sampleMarker; CallStart etcdDriver ]
  /\ calls is_CallReset (trace (snd r)) = 1
  /\ calls is_CallStart (trace (snd r)) = 1
  /\ fs_Stat sampleMarker (snd (fs_Remove sampleMarker w1))
     = Some (ErrNotExist sampleMarker).
Proof.
  intros c w1 r.
  destruct (start_reset_then_remove_then_start registry2 c etcdDriver clean w1
              eq_refl eq_refl eq_refl eq_refl)
    as (Hr & Hreset & Hstart & Hgone & _).
  split; [reflexivity|].
  split; [subst r; rewrite Hr; reflexivity|].
  split; [subst r; rewrite Hr; reflexivity|].
  split; [exact Hreset|]. split; [exact Hstart|].
  apply Hgone. intros e He. discriminate He.
Defined.

(** C9 as first stated fails on a marker that exists and cannot be
    removed: reset is not requested, the removal is attempted and fails,
    [Start] is called, and the marker is still there. *)
Lemma start_leaves_unremovable_marker :
  let c := starting etcdDriver in
  let r := start registry2 c stuck in
  managedDB c = Some etcdDriver
  /\ ClusterReset (config c) = false
  /\ fs_Stat (etcd_ResetFile registry2 (config c)) (world stuck) = None
  /\ fst r = None
  /\ trace (snd r) = [OsRemove sampleMarker; CallStart etcdDriver]
  /\ fs_Stat sampleMarker (world (snd r)) = None
  /\ fs_Stat sampleMarker (world (snd r)) <> Some (ErrNotExist sampleMarker).
Proof.
  cbv zeta. split; [reflexivity|]. split; [reflexivity|].
  split; [reflexivity|]. split; [reflexivity|]. split; [reflexivity|].
  split; [reflexivity|]. vm_compute. discriminate.
Qed.

(** C9 (amended) on a node that boots normally with a removable marker
    left on disk, and on one whose marker cannot be removed. *)
Lemma start_without_reset_removes_marker_witness :
  (let r := start registry2 (starting etcdDriver) marked in
   fst r = None
   /\ trace (snd r) = [OsRemove sampleMarker; CallStart etcdDriver]
   /\ fs_Stat sampleMarker (snd (fs_Remove sampleMarker (world marked)))
      = Some (ErrNotExist sampleMarker))
  /\ snd (fs_Remove sampleMarker (world stuck)) = world stuck.
Proof.
  split.
  - intros r.
    destruct (start_without_reset_removes_marker registry2
                (starting etcdDriver) etcdDriver marked eq_refl eq_refl)
      as (Hr & Hgone & _).
    split; [subst r; rewrite Hr; reflexivity|].
    split; [subst r; rewrite Hr; reflexivity|].
    exact (proj2 (Hgone eq_refl)).
  - destruct (start_without_reset_removes_marker registry2
                (starting etcdDriver) etcdDriver stuck eq_refl eq_refl)
      as (_ & _ & Hkept).
    exact (Hkept (Errorf "read-only file system") eq_refl).
Defined.

(** C4: the second driver is initialized on disk and is bound without the
    third being probed; on an empty disk the endpoint "etcd://..." selects
    the driver named "etcd". *)
Lemma assign_initialized_first_then_endpoint_witness :
  (let r := assignManagedDriver registry3 (unbound "" false) initialized in
   managedDB (fst (fst r)) = Some etcdDriver
   /\ snd (fst r) = None
   /\ trace (snd r)
      = [CallIsInitialized idleDriver; CallIsInitialized etcdDriver])
  /\ (let r := assignManagedDriver registry2
                 (unbound "etcd://10.0.0.1:2379" false) clean in
      managedDB (fst (fst r)) = Some etcdDriver
      /\ snd (fst r) = None
      /\ calls is_CallIsInitialized (trace (snd r)) = 2).
Proof.
  split.
  - intros r. subst r.
    rewrite (proj1 (assign_initialized_first_then_endpoint registry3
                      (unbound "" false) initialized)
                   [idleDriver] etcdDriver [brokenDriver]
                   (world initialized) (world initialized)
                   eq_refl eq_refl eq_refl).
    repeat split.
  - intros r. subst r.
    rewrite (proj2 (assign_initialized_first_then_endpoint registry2
                      (unbound "etcd://10.0.0.1:2379" false) clean)
                   (world clean) "etcd" etcdDriver eq_refl).
    + repeat split.
    + split; [reflexivity|]. right. exists "//10.0.0.1:2379". reflexivity.
    + exists [idleDriver], []. split; [reflexivity|]. split; [reflexivity|].
      constructor; [discriminate | constructor].
Defined.

(** C5: the second driver's probe fails, so nothing is bound although the
    third driver is initialized on disk. *)
Lemma assign_fails_fast_witness :
  let r := assignManagedDriver registryBroken (unbound "etcd" true) initialized in
  snd (fst r) = Some (Errorf "disk unreadable")
  /\ managedDB (fst (fst r)) = None
  /\ trace (snd r)
     = [CallIsInitialized idleDriver; CallIsInitialized brokenDriver].
Proof.
  intros r.
  destruct (assign_fails_fast registryBroken (unbound "etcd" true) initialized
              [idleDriver] brokenDriver [etcdDriver]
              (world initialized) false (Errorf "disk unreadable")
              (world initialized) eq_refl eq_refl eq_refl)
    as (Hr & _ & Hnil).
  split; [subst r; rewrite Hr; reflexivity|].
  split; [apply Hnil; reflexivity|].
  subst r. rewrite Hr. reflexivity.
Defined.

(** C6: with an empty endpoint and cluster-init the default driver "etcd"
    is bound; nothing is bound when no driver carries the default name, or
    when neither cluster-init nor a token with a join URL is given. *)
Lemma assign_default_or_none_witness :
  (let r := assignManagedDriver registry2 (unbound "" true) clean in
   managedDB (fst (fst r)) = Some etcdDriver /\ snd (fst r) = None)
  /\ (let r := assignManagedDriver registryNoDefault (unbound "" true) clean in
      managedDB (fst (fst r)) = None /\ snd (fst r) = None)
  /\ (let r := assignManagedDriver registry2 (unbound "" false) clean in
      managedDB (fst (fst r)) = None /\ snd (fst r) = None).
Proof.
  assert (Hnames2 : Forall (fun d' : Driver nat (list string) string =>
                              EndpointName d' <> "")
                           [idleDriver; etcdDriver]).
  { repeat constructor; discriminate. }
  assert (Hnames1 : Forall (fun d' : Driver nat (list string) string =>
                              EndpointName d' <> "")
                           [idleDriver]).
  { repeat constructor; discriminate. }
  split; [|split].
  - destruct (assign_default_or_none registry2 (unbound "" true) clean
                (world clean) eq_refl Hnames2) as (Hboot & _).
    destruct (Hboot (conj eq_refl (or_introl eq_refl))) as (Hbind & _).
    intros r. subst r. rewrite (Hbind etcdDriver).
    + split; reflexivity.
    + exists [idleDriver], []. split; [reflexivity|]. split; [reflexivity|].
      constructor; [discriminate | constructor].
  - destruct (assign_default_or_none registryNoDefault (unbound "" true) clean
                (world clean) eq_refl Hnames1) as (Hboot & _).
    destruct (Hboot (conj eq_refl (or_introl eq_refl))) as (_ & Hnone).
    intros r. subst r. rewrite Hnone.
    + split; reflexivity.
    + constructor; [discriminate | constructor].
  - destruct (assign_default_or_none registry2 (unbound "" false) clean
                (world clean) eq_refl Hnames2) as (_ & Hskip).
    intros r. subst r. rewrite Hskip.
    + split; reflexivity.
    + intros (_ & [Hinit | (Htoken & _)]); [discriminate|].
      apply Htoken. reflexivity.
Defined.

(** C7: the second tick fails, and the proxy keeps the address of the
    first; a third tick that succeeds replaces it. *)
Lemma proxy_cycle_fail_open_witness :
  let c := starting etcdDriver in
  let tick1 := (["https://10.0.0.1:2379"], None) in
  let tick2 := ([], Some (Errorf "context deadline exceeded")) in
  let tick3 := (["https://10.0.0.2:2379"], None) in
  addresses (fst (setupEtcdProxy c (mkProxy []) [tick1; tick2]))
  = ["https://10.0.0.1:2379"]
  /\ calls is_ProxyUpdate (snd (setupEtcdProxy c (mkProxy []) [tick1; tick2]))
     = 1
  /\ addresses (fst (setupEtcdProxy c (mkProxy []) [tick1; tick2; tick3]))
     = ["https://10.0.0.2:2379"].
Proof.
  intros c tick1 tick2 tick3.
  destruct (proxy_cycle_fail_open c etcdDriver (mkProxy []) [tick1]
              [] (Some (Errorf "context deadline exceeded")) eq_refl)
    as (Hkeep & _ & Hcalls).
  destruct (proxy_cycle_fail_open c etcdDriver (mkProxy []) [tick1; tick2]
              ["https://10.0.0.2:2379"] None eq_refl)
    as (Hreplace & _ & _).
  split; [|split].
  - change [tick1; tick2] with ([tick1] ++ [tick2])%list.
    unfold tick2. rewrite Hkeep. reflexivity.
  - change [tick1; tick2] with ([tick1] ++ [tick2])%list.
    unfold tick2. rewrite Hcalls. reflexivity.
  - exact Hreplace.
Defined.

(** C8: no driver, an external endpoint that is normalised to "etcd", and
    an endpoint that already carries the "etcd://" prefix. *)
Lemma initClusterDB_normalizes_then_registers_witness :
  (let c := unbound "https://db.example:2379" false in
   initClusterDB c ["/ping"] clean = ((c, (["/ping"], None)), clean))
  /\ (let c := sampleCluster (Some etcdDriver)
                 (sampleConfig "https://db.example:2379" false false) in
      let r := initClusterDB c ["/ping"] clean in
      Datastore (config (fst (fst r))) = mkEndpointConfig "" "etcd" "" "" ""
      /\ snd (fst r) = (["/db/info -> etcd"; "/ping"], None)
      /\ trace (snd r) = [CallRegister etcdDriver])
  /\ (let c := sampleCluster (Some etcdDriver)
                 (sampleConfig "etcd://10.0.0.1:2379" false false) in
      let r := initClusterDB c ["/ping"] clean in
      fst (fst r) = c
      /\ snd (fst r) = (["/db/info -> etcd://10.0.0.1:2379"; "/ping"], None)).
Proof.
  split; [|split].
  - intros c.
    exact (proj1 (initClusterDB_normalizes_then_registers c ["/ping"] clean)
                 eq_refl).
  - intros c r.
    destruct (proj1 (proj2 (initClusterDB_normalizes_then_registers
                              c ["/ping"] clean)) etcdDriver eq_refl)
      as (Hr & Hds).
    + intros [rest Hrest]. discriminate Hrest.
    + subst r. rewrite Hr. split; [exact Hds|]. split; reflexivity.
  - intros c r. subst r.
    rewrite (proj2 (proj2 (initClusterDB_normalizes_then_registers
                             c ["/ping"] clean)) etcdDriver eq_refl).
    + split; reflexivity.
    + exists "10.0.0.1:2379". reflexivity.
Defined.

(** C10: two failed tests, then a success: the task has returned and the
    channel is closed once; with no driver it is closed at once. *)
Lemma testClusterDB_nil_error_and_closed_on_return_witness :
  let script := [ mkRound (Some refused) TimerFired;
                  mkRound (Some refused) TimerFired;
                  mkRound None TimerFired ] in
  let r := testClusterDB (starting etcdDriver) script in
  snd r = None
  /\ task (fst r) = Returned
  /\ result (fst r) = Closed
  /\ calls is_CloseResult (probeTrace (fst r)) = 1
  /\ calls is_CallTest (probeTrace (fst r)) = 3
  /\ result (fst (testClusterDB (unbound "" false) script)) = Closed.
Proof.
  intros script r.
  destruct (testClusterDB_nil_error_and_closed_on_return
              (starting etcdDriver) script)
    as (Hnil & _ & Hclosed & Hreturns).
  assert (Hret : task (fst r) = Returned).
  { apply Hreturns; [discriminate|].
    apply Exists_cons_tl, Exists_cons_tl, Exists_cons_hd.
    left. reflexivity. }
  destruct (Hclosed Hret) as (Hres & Honce).
  split; [exact Hnil|]. split; [exact Hret|]. split; [exact Hres|].
  split; [exact Honce|]. split; [reflexivity|].
  exact (proj1 (proj2 (testClusterDB_nil_error_and_closed_on_return
                         (unbound "" false) script)) eq_refl).
Defined.

(** C2 as first stated fails: the first test fails, the wait is cancelled,
    the task returns, and the channel is closed although no test ever
    succeeded. *)
Lemma probe_cancelled_result_is_closed :
  let c := starting etcdDriver in
  let p := fst (testClusterDB c [mkRound (Some refused) CtxDone]) in
  managedDB c = Some etcdDriver
  /\ task p = Returned
  /\ probeTrace p = (failedTest etcdDriver refused ++ [CloseResult])%list
  /\ result p = Closed
  /\ result p <> Open.
Proof.
  vm_compute. repeat split. discriminate.
Qed.

(** C2 (amended): cancelled during the third wait. *)
Lemma probe_cancelled_during_wait_closes_witness :
  let retried := mkRound (Some refused) TimerFired in
  let p := fst (testClusterDB (starting etcdDriver)
                  [ retried; retried; mkRound (Some refused) CtxDone;
                    mkRound None TimerFired ]) in
  task p = Returned
  /\ result p = Closed
  /\ calls is_CallTest (probeTrace p) = 3.
Proof.
  intros retried p.
  destruct (probe_cancelled_during_wait_closes (starting etcdDriver) etcdDriver
              [retried; retried] refused [mkRound None TimerFired] eq_refl)
    as (Hret & Hres & _ & Hcalls).
  - repeat constructor; discriminate.
  - split; [exact Hret|]. split; [exact Hres | exact Hcalls].
Defined.

(** * Further properties *)

Section Further.

Context {DB Handler AccessInfo : Type}.
Variable X : Imports DB Handler AccessInfo.

Implicit Types (c : Cluster DB Handler AccessInfo)
               (d : Driver DB Handler AccessInfo)
               (s : Sys DB Handler AccessInfo)
               (w : World DB)
               (tr : list (Event DB Handler AccessInfo)).

Ltac count_calls :=
  rewrite ?calls_app; unfold calls; simpl; lia.

(** ** start, path by path *)

(** Every way through [start]: what it returns, the world it leaves and
    the calls it adds. *)
Lemma start_cases c s :
  let f := etcd_ResetFile X (config c) in
  (managedDB c = None /\ start X c s = (None, s))
  \/ exists d, managedDB c = Some d /\
     ((ClusterReset (config c) = true
       /\ fs_Stat f (world s) = None
       /\ start X c s
          = (Some (resetDoneError X f),
             mkSys (world s) (trace s ++ [OsStat f])))
      \/ (ClusterReset (config c) = true
          /\ exists e,
             fs_Stat f (world s) = Some e
             /\ os_IsNotExist e = false
             /\ start X c s
                = (Some e, mkSys (world s) (trace s ++ [OsStat f])))
      \/ (ClusterReset (config c) = true
          /\ exists e err w1,
             fs_Stat f (world s) = Some e
             /\ os_IsNotExist e = true
             /\ Reset d (storageBootstrap X c) (cleanCerts X c) (world s)
                = (Some err, w1)
             /\ start X c s
                = (Some err,
                   mkSys w1 (trace s ++ [OsStat f; CallReset d])))
      \/ (ClusterReset (config c) = true
          /\ exists e w1,
             fs_Stat f (world s) = Some e
             /\ os_IsNotExist e = true
             /\ Reset d (storageBootstrap X c) (cleanCerts X c) (world s)
                = (None, w1)
             /\ start X c s
                = (fst (Start d (clientAccessInfo c) (snd (fs_Remove f w1))),
                   mkSys (snd (Start d (clientAccessInfo c)
                                     (snd (fs_Remove f w1))))
                         (trace s ++ [OsStat f; CallReset d;
                                      OsRemove f; CallStart d])))
      \/ (ClusterReset (config c) = false
          /\ start X c s
             = (fst (Start d (clientAccessInfo c)
                           (snd (fs_Remove f (world s)))),
                mkSys (snd (Start d (clientAccessInfo c)
                                  (snd (fs_Remove f (world s)))))
                      (trace s ++ [OsRemove f; CallStart d])))).
Proof.
  intros f.
  remember (start X c s) as r eqn:Hr. unfold start in Hr. fold f in Hr.
  destruct (managedDB c) as [d | ];
    [right; exists d; split; [reflexivity|]
    | left; split; [reflexivity | exact Hr]].
  destruct (ClusterReset (config c)).
  - unfold bind at 1 in Hr. unfold resetBranch in Hr.
    unfold bind at 1 in Hr. unfold os_Stat at 1 in Hr.
    unfold call at 1 in Hr.
    destruct (fs_Stat f (world s)) as [e | ] eqn:Estat.
    + destruct (os_IsNotExist e) eqn:Ene; cbn [negb] in Hr.
      * unfold call at 1 in Hr. cbn [world trace] in Hr.
        destruct (Reset d (storageBootstrap X c) (cleanCerts X c) (world s))
          as [[err | ] w1] eqn:Ereset.
        -- right. right. left. split; [reflexivity|].
           exists e, err, w1.
           split; [reflexivity|]. split; [exact Ene|].
           split; [reflexivity|].
           unfold ret in Hr. rewrite <- app_assoc in Hr. exact Hr.
        -- right. right. right. left. split; [reflexivity|].
           exists e, w1.
           split; [reflexivity|]. split; [exact Ene|].
           split; [reflexivity|].
           unfold f in Hr. rewrite start_tail in Hr. cbn [world trace] in Hr.
           rewrite <- !app_assoc in Hr. exact Hr.
      * right. left. split; [reflexivity|].
        exists e. split; [reflexivity|]. split; [exact Ene | exact Hr].
    + left. split; [reflexivity|]. split; [reflexivity | exact Hr].
  - right. right. right. right. split; [reflexivity|].
    unfold bind at 1 in Hr. unfold ret at 1 in Hr. unfold f in Hr.
    rewrite start_tail in Hr. exact Hr.
Qed.

(** X1. A stat of the marker that fails with an error other than "not
    exist" is returned as it is: the world is untouched and nothing but the
    stat is recorded. *)
Theorem start_stat_failure_returned c d s e :
  managedDB c = Some d ->
  ClusterReset (config c) = true ->
  fs_Stat (etcd_ResetFile X (config c)) (world s) = Some e ->
  os_IsNotExist e = false ->
  start X c s
  = (Some e,
     mkSys (world s) (trace s ++ [OsStat (etcd_ResetFile X (config c))])).
Proof.
  intros Hd Hreset Hstat Hne.
  destruct (start_cases c s) as [[Hnone _] | (d' & Hd' & Hcase)];
    [congruence|].
  destruct Hcase as [(_ & Hs & _) | [(_ & e' & Hs & _ & Hrun)
                    | [(_ & e' & err & w1 & Hs & Hne' & _)
                    | [(_ & e' & w1 & Hs & Hne' & _) | (Hr & _)]]]];
    congruence.
Qed.

(** X2. When the driver's [Reset] fails, its error is returned: the world
    is the one [Reset] left, the marker is not removed and [Start] is not
    called. *)
Theorem start_reset_failure_returned c d s err w1 :
  managedDB c = Some d ->
  ClusterReset (config c) = true ->
  files (world s) (etcd_ResetFile X (config c)) = Absent ->
  Reset d (storageBootstrap X c) (cleanCerts X c) (world s) = (Some err, w1) ->
  let f := etcd_ResetFile X (config c) in
  let r := start X c s in
  r = (Some err, mkSys w1 (trace s ++ [OsStat f; CallReset d]))
  /\ calls is_OsRemove (trace (snd r)) = calls is_OsRemove (trace s)
  /\ calls is_CallStart (trace (snd r)) = calls is_CallStart (trace s).
Proof.
  intros Hd Hreset Habsent HR f r.
  assert (Hr : r = (Some err, mkSys w1 (trace s ++ [OsStat f; CallReset d]))).
  { subst r.
    assert (Hstat : fs_Stat f (world s) = Some (ErrNotExist f)).
    { unfold fs_Stat. subst f. rewrite Habsent. reflexivity. }
    destruct (start_cases c s) as [[Hnone _] | (d' & Hd' & Hcase)];
      [congruence|].
    assert (d' = d) by congruence. subst d'. fold f in Hcase.
    destruct Hcase as [(_ & Hs & _) | [(_ & e' & Hs & Hne' & _)
                      | [(_ & e' & err' & w1' & _ & _ & HR' & Hrun)
                      | [(_ & e' & w1' & _ & _ & HR' & _) | (Hr & _)]]]];
      try congruence.
    assert (e' = ErrNotExist f) by congruence. subst e'. discriminate. }
  split; [exact Hr|]. rewrite Hr. cbn [snd trace].
  split; count_calls.
Qed.

(** X3. [Reset] is called, once, exactly when a driver is bound, the reset
    is requested and the stat of the marker fails with "not exist"; in
    every other run [start] does not call it. *)
Theorem start_resets_exactly_when_due c s :
  let f := etcd_ResetFile X (config c) in
  let r := start X c s in
  let due := exists d e,
      managedDB c = Some d
      /\ ClusterReset (config c) = true
      /\ fs_Stat f (world s) = Some e
      /\ os_IsNotExist e = true in
  (due -> calls is_CallReset (trace (snd r))
          = calls is_CallReset (trace s) + 1)
  /\ (~ due -> calls is_CallReset (trace (snd r))
               = calls is_CallReset (trace s)).
Proof.
  intros f r due. subst r.
  destruct (start_cases c s) as [[Hnone Hrun] | (d & Hd & Hcase)].
  - split.
    + intros (d & e & Hd & _). congruence.
    + intros _. rewrite Hrun. reflexivity.
  - fold f in Hcase.
    destruct Hcase as [(Hr & Hs & Hrun) | [(Hr & e & Hs & Hne & Hrun)
                      | [(Hr & e & err & w1 & Hs & Hne & HR & Hrun)
                      | [(Hr & e & w1 & Hs & Hne & HR & Hrun)
                        | (Hr & Hrun)]]]];
      rewrite Hrun; cbn [snd trace]; split;
      try (intros _; count_calls);
      try (intros (d' & e' & _ & Hr' & Hs' & Hne'); congruence);
      try (intros Hnot; exfalso; apply Hnot; exists d, e; auto).
Qed.

(** X4. [start] calls [Start] at most once, and it reports success only
    when no driver is bound (and then it does nothing) or when [Start] was
    its last call, right after the removal of the marker, and returned no
    error. *)
Theorem start_success_means_started c s :
  let f := etcd_ResetFile X (config c) in
  let r := start X c s in
  calls is_CallStart (trace (snd r)) <= calls is_CallStart (trace s) + 1
  /\ (fst r = None ->
      (managedDB c = None /\ snd r = s)
      \/ exists d pre w,
          managedDB c = Some d
          /\ trace (snd r) = ((trace s ++ pre) ++ [OsRemove f; CallStart d])%list
          /\ Start d (clientAccessInfo c) (snd (fs_Remove f w))
             = (None, world (snd r))).
Proof.
  intros f r. subst r.
  destruct (start_cases c s) as [[Hnone Hrun] | (d & Hd & Hcase)].
  - rewrite Hrun. cbn [fst snd]. split; [lia|]. intros _. left. auto.
  - fold f in Hcase.
    destruct Hcase as [(Hr & Hs & Hrun) | [(Hr & e & Hs & Hne & Hrun)
                      | [(Hr & e & err & w1 & Hs & Hne & HR & Hrun)
                      | [(Hr & e & w1 & Hs & Hne & HR & Hrun)
                        | (Hr & Hrun)]]]];
      rewrite Hrun; cbn [fst snd trace world]; (split; [count_calls|]);
      try discriminate.
    + intros Hok. right. exists d, [OsStat f; CallReset d], w1.
      split; [exact Hd|]. split; [rewrite <- app_assoc; reflexivity|].
      destruct (Start d (clientAccessInfo c) (snd (fs_Remove f w1)))
        as [res w3]. cbn [fst snd] in *. subst res. reflexivity.
    + intros Hok. right. exists d, [], (world s).
      split; [exact Hd|]. split; [rewrite app_nil_r; reflexivity|].
      destruct (Start d (clientAccessInfo c) (snd (fs_Remove f (world s))))
        as [res w3]. cbn [fst snd] in *. subst res. reflexivity.
Qed.

(** ** cleanCerts *)

Lemma append_assoc (a b e : string) : (a ++ b) ++ e = a ++ (b ++ e).
Proof.
  induction a as [ | ch a IH]; simpl; [reflexivity|].
  rewrite IH. reflexivity.
Qed.

Lemma fs_Remove_files p q w :
  files (snd (fs_Remove p w)) q
  = if q =? p then removed (files w q) else files w q.
Proof.
  unfold fs_Remove.
  destruct (files w p) eqn:E; cbn [snd files];
    destruct (String.eqb_spec q p) as [-> | _];
    try rewrite E; reflexivity.
Qed.

Lemma fs_Remove_db p w : db (snd (fs_Remove p w)) = db w.
Proof.
  unfold fs_Remove. destruct (files w p); reflexivity.
Qed.

Lemma removed_twice st : removed (removed st) = removed st.
Proof. destruct st; reflexivity. Qed.

(** Removing a list of paths one after the other. *)
Lemma removeAll_files (l : list string) : forall w q,
  files (fold_left (fun w' cert => snd (fs_Remove cert w')) l w) q
  = if existsb (String.eqb q) l then removed (files w q) else files w q.
Proof.
  induction l as [ | p l IH]; intros w q; cbn [fold_left existsb].
  - reflexivity.
  - rewrite IH, fs_Remove_files.
    destruct (q =? p); destruct (existsb (String.eqb q) l); cbn [orb];
      rewrite ?removed_twice; reflexivity.
Qed.

Lemma removeAll_db (l : list string) : forall w,
  db (fold_left (fun w' cert => snd (fs_Remove cert w')) l w) = db w.
Proof.
  induction l as [ | p l IH]; intros w; cbn [fold_left]; [reflexivity|].
  rewrite IH. apply fs_Remove_db.
Qed.

Lemma existsb_eqb_In (q : string) (l : list string) :
  existsb (String.eqb q) l = true <-> In q l.
Proof.
  rewrite existsb_exists. split.
  - intros (p & Hin & Heq). apply String.eqb_eq in Heq. subst. exact Hin.
  - intros Hin. exists q. split; [exact Hin | apply String.eqb_refl].
Qed.


(** X6. After [cleanCerts] a further removal of a listed path cannot
    succeed (the path is gone, or its removal fails as before), and running
    [cleanCerts] a second time changes nothing. *)
Theorem cleanCerts_idempotent c w q :
  (In q (certFiles X (DataDir (config c))) ->
   fst (fs_Remove q (cleanCerts X c w)) <> None)
  /\ files (cleanCerts X c (cleanCerts X c w)) q
     = files (cleanCerts X c w) q
  /\ db (cleanCerts X c (cleanCerts X c w)) = db (cleanCerts X c w).
Proof.
  unfold cleanCerts. split; [|split].
  - intros Hin. unfold fs_Remove. rewrite removeAll_files.
    apply existsb_eqb_In in Hin. rewrite Hin.
    destruct (files w q); cbn [removed fst]; discriminate.
  - rewrite !removeAll_files.
    destruct (existsb (String.eqb q) (certFiles X (DataDir (config c))));
      rewrite ?removed_twice; reflexivity.
  - rewrite !removeAll_db. reflexivity.
Qed.

(** *** Cleaning a path that is extended by ordinary elements *)













(** [filepath_Clean] and [filepath_Join] on the cases the documentation of
    package [path/filepath] lists. *)
Lemma filepath_Clean_examples :
  filepath_Clean "abc//def//ghi" = "abc/def/ghi"
  /\ filepath_Clean "//abc//" = "/abc"
  /\ filepath_Clean "abc/./def/." = "abc/def"
  /\ filepath_Clean "abc/def/ghi/../jkl" = "abc/def/jkl"
  /\ filepath_Clean "abc/def/../.." = "."
  /\ filepath_Clean "/abc/def/../../.." = "/"
  /\ filepath_Clean "abc/def/../../../ghi/jkl/../../../mno" = "../../mno"
  /\ filepath_Clean "/../abc" = "/abc"
  /\ filepath_Clean "" = "."
  /\ filepath_Join ["a"; ""; "../b"] = "b"
  /\ filepath_Join [""; ""] = ""
  /\ filepath_Join ["/var/lib/k3s/server/"; "tls"; "client-ca.crt"]
     = "/var/lib/k3s/server/tls/client-ca.crt".
Proof. repeat split. Qed.






(** ** assignManagedDriver *)

(** The first loop probes a leading part of the registry, each driver
    once, and a driver it finds is a registered one. *)
Lemma scanInitialized_shape cfg (drivers : list (Driver DB Handler AccessInfo)) :
  forall s, exists n w' scan,
    scanInitialized cfg drivers s
    = (scan,
       mkSys w' (trace s ++ map (@CallIsInitialized _ _ _) (firstn n drivers)))
    /\ match scan with
       | ScanFound d => In d drivers
       | _ => True
       end.
Proof.
  induction drivers as [ | d0 rest IH]; intros s.
  - exists 0, (world s), (ScanNone _ _ _). cbn [scanInitialized firstn map].
    rewrite app_nil_r. destruct s. split; [reflexivity | exact I].
  - cbn [scanInitialized]. unfold bind at 1. unfold call at 1.
    destruct (IsInitialized d0 cfg (world s)) as [[ok err] w1].
    destruct err as [err | ]; [|destruct ok].
    + exists 1, w1, (ScanError _ _ _ err).
      split; [destruct ok; reflexivity | exact I].
    + exists 1, w1, (ScanFound d0).
      split; [reflexivity | left; reflexivity].
    + destruct (IH (mkSys w1 (trace s ++ [CallIsInitialized d0])))
        as (n & w' & scan & Hrun & Hfound).
      exists (S n), w', scan. rewrite Hrun. cbn [world trace firstn map].
      rewrite <- app_assoc. split; [reflexivity|].
      destruct scan; auto. right. exact Hfound.
Qed.

(** X8. Whatever the registry and the configuration, the resolver either
    leaves the cluster as it is or binds a driver of the registry and
    returns no error; it never changes the configuration, and when it
    returns an error the cluster is unchanged. *)
Theorem assign_binds_registered_only c s :
  let r := assignManagedDriver X c s in
  config (fst (fst r)) = config c
  /\ (snd (fst r) <> None -> fst (fst r) = c)
  /\ (fst (fst r) = c
      \/ exists d, In d (managed_Registered X)
                   /\ fst r = (set_managedDB c d, None)).
Proof.
  intros r. subst r. unfold assignManagedDriver, bind.
  destruct (scanInitialized_shape (config c) (managed_Registered X) s)
    as (n & w' & scan & Hrun & Hfound).
  rewrite Hrun. clear Hrun.
  assert (Hbound : forall d s1,
             In d (managed_Registered X) ->
             let r := ret (set_managedDB c d, @None error) s1 in
             config (fst (fst r)) = config c
             /\ (snd (fst r) <> None -> fst (fst r) = c)
             /\ (fst (fst r) = c
                 \/ exists d', In d' (managed_Registered X)
                               /\ fst r = (set_managedDB c d', None))).
  { intros d s1 Hin. cbn. split; [reflexivity|]. split; [congruence|].
    right. exists d. auto. }
  assert (Hkept : forall (err : option error) s1,
             let r := ret (c, err) s1 in
             config (fst (fst r)) = config c
             /\ (snd (fst r) <> None -> fst (fst r) = c)
             /\ (fst (fst r) = c
                 \/ exists d', In d' (managed_Registered X)
                               /\ fst r = (set_managedDB c d', None))).
  { intros err s1. cbn. auto. }
  destruct scan as [err | d | ].
  - apply Hkept.
  - apply Hbound. exact Hfound.
  - destruct (find (fun driver => endpointType (config c) =? EndpointName driver)
                   (managed_Registered X)) as [d | ] eqn:Ename.
    + apply Hbound. apply find_some in Ename. apply Ename.
    + destruct (wantsDefault (config c)); [|apply Hkept].
      destruct (find (fun driver => EndpointName driver =? managed_Default X)
                     (managed_Registered X)) as [d | ] eqn:Edef.
      * apply Hbound. apply find_some in Edef. apply Edef.
      * apply Hkept.
Qed.

Lemma calls_probes (kind : Event DB Handler AccessInfo -> bool)
      (drivers : list (Driver DB Handler AccessInfo)) :
  (forall d, kind (CallIsInitialized d) = false) ->
  calls kind (map (@CallIsInitialized _ _ _) drivers) = 0.
Proof.
  intros Hkind. induction drivers as [ | d rest IH]; [reflexivity|].
  cbn [map]. rewrite calls_cons, Hkind, IH. reflexivity.
Qed.

(** X9. Of the calls that can change the world (the file-system calls and
    the driver's [IsInitialized], [Reset], [Start] and [Register]) the
    resolver makes only [IsInitialized] probes: of a leading part of the
    registry, in registration order, once per position.  It never stats or
    removes a file and never calls [Reset], [Start] or [Register]. *)
Theorem assign_probes_in_order c s :
  let tr' := trace (snd (assignManagedDriver X c s)) in
  (exists n,
      tr' = (trace s ++ map (@CallIsInitialized _ _ _)
                            (firstn n (managed_Registered X)))%list)
  /\ calls is_CallReset tr' = calls is_CallReset (trace s)
  /\ calls is_CallStart tr' = calls is_CallStart (trace s)
  /\ calls is_CallRegister tr' = calls is_CallRegister (trace s)
  /\ calls is_OsStat tr' = calls is_OsStat (trace s)
  /\ calls is_OsRemove tr' = calls is_OsRemove (trace s).
Proof.
  intros tr'.
  assert (Hshape : exists n,
             tr' = (trace s ++ map (@CallIsInitialized _ _ _)
                                   (firstn n (managed_Registered X)))%list).
  { subst tr'. unfold assignManagedDriver, bind.
    destruct (scanInitialized_shape (config c) (managed_Registered X) s)
      as (n & w' & scan & Hrun & _).
    exists n. rewrite Hrun.
    destruct scan as [err | d | ]; [reflexivity | reflexivity |].
    destruct (find (fun driver =>
                      endpointType (config c) =? EndpointName driver)
                   (managed_Registered X)); [reflexivity|].
    destruct (wantsDefault (config c)); [|reflexivity].
    destruct (find (fun driver => EndpointName driver =? managed_Default X)
                   (managed_Registered X)); reflexivity. }
  split; [exact Hshape|].
  destruct Hshape as [n ->].
  repeat split; rewrite calls_app, calls_probes; auto.
Qed.

Lemma cut_some (ch : ascii) : forall str before after,
  cut ch str = Some (before, after) ->
  str = before ++ String ch after /\ has_byte ch before = false.
Proof.
  induction str as [ | a rest IH]; intros before after H; simpl in H.
  - discriminate.
  - destruct (Ascii.eqb_spec a ch) as [-> | Hne].
    + injection H as <- <-. split; reflexivity.
    + destruct (cut ch rest) as [[b1 a1] | ]; [|discriminate].
      injection H as <- <-.
      destruct (IH b1 a1 eq_refl) as [-> Hno]. split; [reflexivity|].
      simpl. rewrite Hno.
      destruct (Ascii.eqb_spec a ch); [contradiction | reflexivity].
Qed.

Lemma cut_none_inv (ch : ascii) : forall str,
  cut ch str = None -> has_byte ch str = false.
Proof.
  induction str as [ | a rest IH]; intros H; simpl in *; [reflexivity|].
  destruct (Ascii.eqb a ch); [discriminate|].
  destruct (cut ch rest) as [[b1 a1] | ]; [discriminate|].
  apply IH. reflexivity.
Qed.

(** X10. For every configuration the endpoint type is the part of the
    endpoint before its first colon, the whole endpoint when it has none,
    and no other string is. *)
Theorem endpointType_is_before_first_colon (cfg : Config) :
  beforeFirstColon (Endpoint (Datastore cfg)) (endpointType cfg)
  /\ forall name,
      beforeFirstColon (Endpoint (Datastore cfg)) name ->
      name = endpointType cfg.
Proof.
  split.
  - unfold endpointType, strings_SplitN2, beforeFirstColon.
    destruct (cut colon (Endpoint (Datastore cfg))) as [[before after] | ]
      eqn:E; cbn [hd].
    + apply cut_some in E. destruct E as [Heq Hno].
      split; [exact Hno|]. right. exists after. exact Heq.
    + apply cut_none_inv in E. split; [exact E | left; reflexivity].
  - intros name H. symmetry. apply endpointType_beforeFirstColon. exact H.
Qed.

(** ** initClusterDB *)

Lemma prefix_longer (a : string) (ch : ascii) (b : string) :
  String.prefix (a ++ String ch b) a = false.
Proof.
  induction a as [ | x a IH]; simpl; [reflexivity|].
  destruct (Ascii.ascii_dec x x) as [_ | Hne]; [exact IH | contradiction].
Qed.

(** The cluster that [initClusterDB] returns. *)
Lemma initClusterDB_cluster c handler s :
  fst (fst (initClusterDB c handler s))
  = match managedDB c with
    | None => c
    | Some d =>
        if strings_HasPrefix (Endpoint (Datastore (config c)))
                             (EndpointName d ++ "://")
        then c
        else set_config c (set_Datastore (config c)
                             (EndpointConfig_only (EndpointName d)))
    end.
Proof.
  unfold initClusterDB. destruct (managedDB c) as [d | ]; [|reflexivity].
  unfold bind, call, ret.
  destruct (strings_HasPrefix _ _); cbn [negb];
    match goal with
    | |- context [Register ?d ?cfg ?h ?w] => destruct (Register d cfg h w)
    end; reflexivity.
Qed.

(** X11. The normalisation of [initClusterDB] settles after one call:
    calling it again on the cluster it returned, with any handler and in
    any world, returns that same cluster. *)
Theorem initClusterDB_config_settles c handler s handler' s' :
  let c1 := fst (fst (initClusterDB c handler s)) in
  fst (fst (initClusterDB c1 handler' s')) = c1.
Proof.
  intros c1. subst c1. rewrite !initClusterDB_cluster.
  destruct (managedDB c) as [d | ] eqn:Hd; [|rewrite Hd; reflexivity].
  destruct (strings_HasPrefix (Endpoint (Datastore (config c)))
                              (EndpointName d ++ "://")) eqn:E.
  - rewrite Hd, E. reflexivity.
  - cbn [managedDB set_config config set_Datastore Datastore Endpoint
         EndpointConfig_only].
    rewrite Hd. unfold strings_HasPrefix.
    change "://" with (String ":"%char "//").
    rewrite prefix_longer. reflexivity.
Qed.

(** X12. After [initClusterDB] with a bound driver whose endpoint name has
    no colon, the endpoint type of the configuration is that name, so a
    resolver run on any cluster that carries the returned configuration,
    one with no driver bound included, over a registry where nothing is
    initialized and that driver is the first of its name, binds that
    driver. *)
Theorem initClusterDB_then_resolves_same_driver c d handler s :
  managedDB c = Some d ->
  has_byte colon (EndpointName d) = false ->
  let c1 := fst (fst (initClusterDB c handler s)) in
  endpointType (config c1) = EndpointName d
  /\ forall c' s' w1,
      config c' = config c1 ->
      allUninitialized (config c') (managed_Registered X) (world s') = Some w1 ->
      firstNamed (EndpointName d) d (managed_Registered X) ->
      let r := assignManagedDriver X c' s' in
      r = ((set_managedDB c' d, None),
           mkSys w1 (trace s' ++ map (@CallIsInitialized _ _ _)
                                     (managed_Registered X)))
      /\ managedDB (fst (fst r)) = Some d.
Proof.
  intros Hd Hno c1.
  assert (Htype : endpointType (config c1) = EndpointName d).
  { apply endpointType_beforeFirstColon. split; [exact Hno|].
    subst c1. rewrite initClusterDB_cluster, Hd.
    destruct (strings_HasPrefix (Endpoint (Datastore (config c)))
                                (EndpointName d ++ "://")) eqn:E.
    - apply strings_HasPrefix_spec in E. destruct E as [rest Hrest].
      right. exists ("//" ++ rest). rewrite Hrest, append_assoc.
      reflexivity.
    - left. reflexivity. }
  split; [exact Htype|].
  intros c' s' w1 Hcfg Hall Hfirst r.
  assert (Hr : r = ((set_managedDB c' d, None),
                    mkSys w1 (trace s' ++ map (@CallIsInitialized _ _ _)
                                              (managed_Registered X)))).
  { subst r. unfold assignManagedDriver, bind.
    rewrite (scanInitialized_none _ _ _ _ Hall), Hcfg, Htype.
    rewrite (find_firstNamed_l _ _ _ Hfirst). reflexivity. }
  split; [exact Hr|]. rewrite Hr. reflexivity.
Qed.

(** ** testClusterDB *)

Lemma calls_failedTests_waits d rounds :
  Forall (fun r => testErr r <> None) rounds ->
  calls is_TimeAfter (failedTests d rounds) = List.length rounds.
Proof.
  unfold failedTests.
  induction 1 as [ | r rounds Hfail _ IH]; cbn [flat_map length];
    [reflexivity|].
  destruct (testErr r) as [err | ]; [|contradiction].
  rewrite calls_app, IH. reflexivity.
Qed.

Lemma calls_failedTests_close d rounds :
  calls is_CloseResult (failedTests d rounds) = 0.
Proof.
  unfold failedTests.
  induction rounds as [ | r rounds IH]; cbn [flat_map]; [reflexivity|].
  rewrite calls_app, IH. destruct (testErr r); reflexivity.
Qed.

(** X13. When the test fails a number of times with the timer firing each
    time and then succeeds, the task calls [Test] once per round, waits
    once per failure, logs the success, closes the channel once and
    returns; answers that come later are not consulted. *)
Theorem probe_succeeds_after_retries c d pre ok rest :
  managedDB c = Some d ->
  Forall failedAndRetried pre ->
  testErr ok = None ->
  let p := fst (testClusterDB c (pre ++ ok :: rest)) in
  task p = Returned
  /\ result p = Closed
  /\ probeTrace p
     = (failedTests d pre
        ++ [ CallTest d;
             LogInfo (EndpointName d ++ " data store connection OK");
             CloseResult ])%list
  /\ calls is_CallTest (probeTrace p) = List.length pre + 1
  /\ calls is_TimeAfter (probeTrace p) = List.length pre
  /\ calls is_CloseResult (probeTrace p) = 1.
Proof.
  intros Hd Hpre Hok p.
  assert (Hp : p = mkProbe Closed Returned
                     (failedTests d pre
                      ++ [ CallTest d;
                           LogInfo (EndpointName d
                                    ++ " data store connection OK");
                           CloseResult ])).
  { subst p. unfold testClusterDB. rewrite Hd. cbn [fst].
    unfold probeTask. rewrite (probeLoop_retries d pre _ Hpre).
    cbn [probeLoop]. rewrite Hok. cbn [fst snd].
    rewrite <- app_assoc. reflexivity. }
  rewrite Hp. cbn [task result probeTrace].
  split; [reflexivity|]. split; [reflexivity|]. split; [reflexivity|].
  pose proof (failedAndRetried_failed pre Hpre) as Hfailed.
  split; [|split].
  - rewrite calls_app, (calls_failedTests d pre Hfailed). reflexivity.
  - rewrite calls_app, (calls_failedTests_waits d pre Hfailed).
    unfold calls. simpl. lia.
  - rewrite calls_app, calls_failedTests_close. reflexivity.
Qed.

(** X14. As long as every test has failed and every wait has ended by the
    timer, the task is still running and the channel is open: nothing has
    been closed. *)
Theorem probe_keeps_open_while_retrying c d script :
  managedDB c = Some d ->
  Forall failedAndRetried script ->
  let p := fst (testClusterDB c script) in
  task p = Running
  /\ result p = Open
  /\ probeTrace p = failedTests d script
  /\ calls is_CallTest (probeTrace p) = List.length script.
Proof.
  intros Hd Hscript p.
  assert (Hp : p = mkProbe Open Running (failedTests d script)).
  { subst p. unfold testClusterDB. rewrite Hd. cbn [fst].
    unfold probeTask.
    rewrite <- (app_nil_r script) at 1.
    rewrite (probeLoop_retries d script [] Hscript).
    cbn [probeLoop fst snd]. rewrite app_nil_r. reflexivity. }
  rewrite Hp. cbn [task result probeTrace].
  split; [reflexivity|]. split; [reflexivity|]. split; [reflexivity|].
  apply calls_failedTests. apply failedAndRetried_failed. exact Hscript.
Qed.

(** X15. In every run the channel is closed at most once, and it is closed
    exactly when no driver is bound or the task has returned. *)
Theorem probe_closed_iff_returned c script :
  let p := fst (testClusterDB c script) in
  calls is_CloseResult (probeTrace p) <= 1
  /\ (result p = Closed <-> calls is_CloseResult (probeTrace p) = 1)
  /\ (result p = Closed <-> managedDB c = None \/ task p = Returned).
Proof.
  intros p. subst p. unfold testClusterDB.
  destruct (managedDB c) as [d | ]; cbn [fst].
  - unfold probeTask.
    pose proof (probeLoop_returned_calls d script) as Hcalls.
    destruct (probeLoop d script) as [tr t]. cbn [fst] in Hcalls.
    destruct t; cbn [task result probeTrace];
      rewrite ?calls_app, Hcalls.
    + split; [lia|]. split; split; try discriminate.
      intros [H | H]; discriminate.
    + split; [lia|]. split; split; try discriminate.
      intros [H | H]; discriminate.
    + cbn. split; [lia|]. split; split; auto.
  - cbn. split; [lia|]. split; split; auto.
Qed.

Lemma probeLoop_stable d script more :
  snd (probeLoop d script) = Returned ->
  probeLoop d (script ++ more) = probeLoop d script.
Proof.
  induction script as [ | r rest IH]; cbn [app probeLoop snd].
  - discriminate.
  - destruct (testErr r) as [err | ]; [|reflexivity].
    destruct (woken r); [|reflexivity].
    destruct (probeLoop d rest) as [later t] eqn:E. cbn [snd] in *.
    intros Ht. rewrite (IH Ht). reflexivity.
Qed.

(** X16. Once the task has returned it never runs again: whatever the
    environment would answer afterwards, the outcome is the same. *)
Theorem probe_never_rearms c script more :
  task (fst (testClusterDB c script)) = Returned ->
  testClusterDB c (script ++ more) = testClusterDB c script.
Proof.
  unfold testClusterDB. destruct (managedDB c) as [d | ]; cbn [fst].
  - unfold probeTask. intros Hret.
    rewrite probeLoop_stable; [reflexivity|].
    destruct (probeLoop d script) as [tr t]. cbn [snd].
    destruct t; cbn [task] in Hret; congruence.
  - discriminate.
Qed.

(** ** setupEtcdProxy *)

Lemma proxyLoop_app d ticks1 : forall ticks2 p,
  proxyLoop d (ticks1 ++ ticks2) p
  = let before := proxyLoop d ticks1 p in
    let after := proxyLoop d ticks2 (fst before) in
    (fst after, (snd before ++ snd after)%list).
Proof.
  induction ticks1 as [ | a ticks1 IH]; intros ticks2 p; cbn [app proxyLoop].
  - cbn. destruct (proxyLoop d ticks2 p). reflexivity.
  - destruct (proxyCycle d a p) as [p1 now]. rewrite IH.
    destruct (proxyLoop d ticks1 p1) as [p2 later]. cbn [fst snd].
    destruct (proxyLoop d ticks2 p2) as [p3 last]. cbn [fst snd].
    rewrite app_assoc. reflexivity.
Qed.

Lemma proxyLoop_failed d ticks : forall p,
  Forall failedAnswer ticks -> fst (proxyLoop d ticks p) = p.
Proof.
  induction ticks as [ | a ticks IH]; intros p Hall; [reflexivity|].
  inversion Hall as [ | a' ticks' Ha Hrest]; subst.
  cbn [proxyLoop]. destruct a as [l [e | ]]; [|exfalso; apply Ha; reflexivity].
  cbn [proxyCycle].
  specialize (IH p Hrest). destruct (proxyLoop d ticks p) as [p2 later].
  exact IH.
Qed.

(** X17. The proxy always holds the list of the last query that succeeded:
    failures after it change nothing, and when every query so far has
    failed the proxy is as it was handed over. *)
Theorem proxy_holds_last_success c d etcdProxy :
  managedDB c = Some d ->
  (forall pre newAddresses post,
      Forall failedAnswer post ->
      addresses (fst (setupEtcdProxy c etcdProxy
                        (pre ++ (newAddresses, None) :: post)))
      = newAddresses)
  /\ (forall ticks,
      Forall failedAnswer ticks ->
      fst (setupEtcdProxy c etcdProxy ticks) = etcdProxy).
Proof.
  intros Hd. unfold setupEtcdProxy. rewrite Hd. split.
  - intros pre newAddresses post Hpost.
    rewrite proxyLoop_app. cbn zeta.
    destruct (proxyLoop d pre etcdProxy) as [p1 tr1]. cbn [fst snd].
    cbn [proxyLoop proxyCycle].
    pose proof (proxyLoop_failed d post (Proxy_Update newAddresses p1) Hpost)
      as Hkeep.
    destruct (proxyLoop d post (Proxy_Update newAddresses p1)) as [p2 tr2].
    cbn [fst snd] in *. subst p2. reflexivity.
  - intros ticks Hall.
    pose proof (proxyLoop_failed d ticks etcdProxy Hall) as Hkeep.
    destruct (proxyLoop d ticks etcdProxy) as [p tr]. exact Hkeep.
Qed.

Lemma proxyLoop_counts d ticks : forall p,
  calls is_CallGetMembersClientURLs (snd (proxyLoop d ticks p))
  = List.length ticks
  /\ calls is_ProxyUpdate (snd (proxyLoop d ticks p))
     = List.length (filter (fun a => match snd a with
                                     | None => true
                                     | Some _ => false
                                     end) ticks)
  /\ calls is_NewTicker (snd (proxyLoop d ticks p)) = 0.
Proof.
  induction ticks as [ | a ticks IH]; intros p; cbn [proxyLoop filter length].
  - repeat split.
  - destruct a as [l [e | ]]; cbn [proxyCycle snd].
    + destruct (IH p) as (Hq & Hu & Ht).
      destruct (proxyLoop d ticks p) as [p2 later]. cbn [snd app] in *.
      rewrite !calls_cons, Hq, Hu, Ht. repeat split.
    + destruct (IH (Proxy_Update l p)) as (Hq & Hu & Ht).
      destruct (proxyLoop d ticks (Proxy_Update l p)) as [p2 later].
      cbn [snd app] in *.
      rewrite !calls_cons, Hq, Hu, Ht. repeat split.
Qed.

(** X18. With a driver bound the updater creates one ticker, queries the
    members once per tick and updates the proxy once per query that
    succeeded; with no driver bound it creates no ticker, makes no call and
    leaves the proxy alone. *)
Theorem proxy_one_query_per_tick c etcdProxy ticks :
  let r := setupEtcdProxy c etcdProxy ticks in
  (managedDB c <> None ->
   calls is_NewTicker (snd r) = 1
   /\ calls is_CallGetMembersClientURLs (snd r) = List.length ticks
   /\ calls is_ProxyUpdate (snd r)
      = List.length (filter (fun a => match snd a with
                                      | None => true
                                      | Some _ => false
                                      end) ticks))
  /\ (managedDB c = None -> r = (etcdProxy, [])).
Proof.
  intros r. subst r. unfold setupEtcdProxy.
  destruct (managedDB c) as [d | ].
  - split; [intros _ | discriminate].
    destruct (proxyLoop_counts d ticks etcdProxy) as (Hq & Hu & Ht).
    destruct (proxyLoop d ticks etcdProxy) as [p tr]. cbn [snd] in *.
    rewrite !calls_cons, Hq, Hu, Ht. repeat split.
  - split; [intros Hne; exfalso; apply Hne; reflexivity | reflexivity].
Qed.

End Further.

(** * The further properties on sample runs *)

(** X1 on a disk where the marker cannot be reached. *)
Lemma start_stat_failure_returned_witness :
  start registry2 (resetting etcdDriver) locked
  = (Some (Errorf "permission denied"),
     mkSys (world locked) [OsStat sampleMarker]).
Proof.
  exact (start_stat_failure_returned registry2 (resetting etcdDriver)
           etcdDriver locked (Errorf "permission denied")
           eq_refl eq_refl eq_refl eq_refl).
Defined.

(** X2 with the driver whose reset fails. *)
Lemma start_reset_failure_returned_witness :
  let r := start registry2 (resetting brokenDriver) clean in
  fst r = Some (Errorf "reset failed")
  /\ calls is_OsRemove (trace (snd r)) = 0
  /\ calls is_CallStart (trace (snd r)) = 0.
Proof.
  intros r.
  destruct (start_reset_failure_returned registry2 (resetting brokenDriver)
              brokenDriver clean (Errorf "reset failed") (world clean)
              eq_refl eq_refl eq_refl eq_refl) as (Hr & Hremove & Hstart).
  split; [subst r; rewrite Hr; reflexivity|].
  split; [exact Hremove | exact Hstart].
Defined.

(** X3: the reset is due on a clean disk and not due when the marker is
    there. *)
Lemma start_resets_exactly_when_due_witness :
  calls is_CallReset
        (trace (snd (start registry2 (resetting etcdDriver) clean))) = 1
  /\ calls is_CallReset
           (trace (snd (start registry2 (resetting etcdDriver) marked))) = 0.
Proof.
  split.
  - apply (proj1 (start_resets_exactly_when_due registry2
                    (resetting etcdDriver) clean)).
    exists etcdDriver, (ErrNotExist sampleMarker). repeat split.
  - apply (proj2 (start_resets_exactly_when_due registry2
                    (resetting etcdDriver) marked)).
    intros (d & e & _ & _ & Hstat & _). discriminate Hstat.
Defined.

(** X4 on a normal start. *)
Lemma start_success_means_started_witness :
  let r := start registry2 (starting etcdDriver) marked in
  calls is_CallStart (trace (snd r)) <= 1
  /\ exists pre,
      trace (snd r)
      = (pre ++ [OsRemove sampleMarker; CallStart etcdDriver])%list.
Proof.
  intros r.
  destruct (start_success_means_started registry2 (starting etcdDriver) marked)
    as (Honce & Hok).
  split; [exact Honce|].
  destruct (Hok eq_refl) as [[Hnone _] | (d & pre & w & Hd & Htrace & _)].
  - discriminate Hnone.
  - exists pre. injection Hd as <-. exact Htrace.
Defined.


Lemma cleanCerts_idempotent_witness :
  let c := resetting etcdDriver in
  fst (fs_Remove sampleCert (cleanCerts registry2 c certified))
  = Some (ErrNotExist sampleCert)
  /\ files (cleanCerts registry2 c (cleanCerts registry2 c certified))
           sampleCert
     = files (cleanCerts registry2 c certified) sampleCert.
Proof.
  intros c.
  destruct (cleanCerts_idempotent registry2 c certified sampleCert)
    as (Hgone & Hsame & _).
  split; [|exact Hsame].
  assert (Hin : In sampleCert (certFiles registry2 (DataDir (config c)))).
  { left. reflexivity. }
  specialize (Hgone Hin).
  destruct (fst (fs_Remove sampleCert (cleanCerts registry2 c certified)))
    as [e | ] eqn:E; [|contradiction].
  vm_compute in E. injection E as <-. reflexivity.
Defined.


(** X8: a probe that fails leaves the cluster alone; a bound driver comes
    from the registry. *)
Lemma assign_binds_registered_only_witness :
  fst (fst (assignManagedDriver registryBroken (unbound "etcd" true)
              initialized))
  = unbound "etcd" true
  /\ config (fst (fst (assignManagedDriver registry2 (unbound "" true) clean)))
     = config (unbound "" true).
Proof.
  split.
  - apply (proj1 (proj2 (assign_binds_registered_only registryBroken
                           (unbound "etcd" true) initialized))).
    discriminate.
  - exact (proj1 (assign_binds_registered_only registry2
                    (unbound "" true) clean)).
Defined.

(** X10 on an endpoint with two colons. *)
Lemma endpointType_is_before_first_colon_witness :
  endpointType (sampleConfig "etcd://10.0.0.1:2379" false false) = "etcd".
Proof.
  symmetry.
  apply (proj2 (endpointType_is_before_first_colon
                  (sampleConfig "etcd://10.0.0.1:2379" false false))).
  split; [reflexivity|]. right. exists "//10.0.0.1:2379". reflexivity.
Defined.

(** X9 on a registry whose second driver is initialized. *)
Lemma assign_probes_in_order_witness :
  let tr' := trace (snd (assignManagedDriver registry3 (unbound "" false)
                           initialized)) in
  tr' = [CallIsInitialized idleDriver; CallIsInitialized etcdDriver]
  /\ calls is_CallReset tr' = 0
  /\ calls is_CallStart tr' = 0
  /\ calls is_CallRegister tr' = 0
  /\ calls is_OsRemove tr' = 0.
Proof.
  intros tr'.
  destruct (assign_probes_in_order registry3 (unbound "" false) initialized)
    as (_ & Hreset & Hstart & Hregister & _ & Hremove).
  split; [reflexivity|]. split; [exact Hreset|]. split; [exact Hstart|].
  split; [exact Hregister | exact Hremove].
Defined.

(** X12: an external endpoint is normalised, and the resolver, run on a
    cluster that carries the new configuration and has no driver bound,
    finds the same driver by name. *)
Lemma initClusterDB_then_resolves_same_driver_witness :
  let c := sampleCluster (Some etcdDriver)
             (sampleConfig "https://db.example:2379" false false) in
  let c1 := fst (fst (initClusterDB c ["/ping"] clean)) in
  let fresh := sampleCluster None (config c1) in
  endpointType (config c1) = "etcd"
  /\ managedDB fresh = None
  /\ managedDB (fst (fst (assignManagedDriver registry2 fresh clean)))
     = Some etcdDriver.
Proof.
  intros c c1 fresh.
  destruct (initClusterDB_then_resolves_same_driver registry2 c etcdDriver
              ["/ping"] clean eq_refl eq_refl) as (Htype & Hassign).
  split; [exact Htype|]. split; [reflexivity|].
  destruct (Hassign fresh clean (world clean) eq_refl eq_refl) as (_ & Hbound).
  - exists [idleDriver], []. split; [reflexivity|]. split; [reflexivity|].
    constructor; [discriminate | constructor].
  - exact Hbound.
Defined.

(** X13: two failures, then success. *)
Lemma probe_succeeds_after_retries_witness :
  let retried := mkRound (Some refused) TimerFired in
  let p := fst (testClusterDB (starting etcdDriver)
                  [retried; retried; mkRound None TimerFired; retried]) in
  task p = Returned
  /\ result p = Closed
  /\ calls is_CallTest (probeTrace p) = 3
  /\ calls is_TimeAfter (probeTrace p) = 2.
Proof.
  intros retried p.
  destruct (probe_succeeds_after_retries (starting etcdDriver) etcdDriver
              [retried; retried] (mkRound None TimerFired) [retried] eq_refl)
    as (Hret & Hres & _ & Htests & Hwaits & _).
  - repeat constructor; discriminate.
  - reflexivity.
  - split; [exact Hret|]. split; [exact Hres|].
    split; [exact Htests | exact Hwaits].
Defined.

(** X14: still retrying after three failures. *)
Lemma probe_keeps_open_while_retrying_witness :
  let retried := mkRound (Some refused) TimerFired in
  let p := fst (testClusterDB (starting etcdDriver)
                  [retried; retried; retried]) in
  task p = Running /\ result p = Open
  /\ calls is_CallTest (probeTrace p) = 3.
Proof.
  intros retried p.
  destruct (probe_keeps_open_while_retrying (starting etcdDriver) etcdDriver
              [retried; retried; retried] eq_refl)
    as (Hrun & Hopen & _ & Htests).
  - repeat constructor; discriminate.
  - split; [exact Hrun|]. split; [exact Hopen | exact Htests].
Defined.

(** X15 on a run that is cancelled. *)
Lemma probe_closed_iff_returned_witness :
  let p := fst (testClusterDB (starting etcdDriver)
                  [mkRound (Some refused) CtxDone]) in
  result p = Closed /\ calls is_CloseResult (probeTrace p) = 1.
Proof.
  intros p.
  destruct (probe_closed_iff_returned (starting etcdDriver)
              [mkRound (Some refused) CtxDone]) as (_ & Hclose & Hiff).
  assert (Hres : result p = Closed).
  { apply (proj2 Hiff). right. reflexivity. }
  split; [exact Hres|]. apply (proj1 Hclose). exact Hres.
Defined.

(** X16: answers after a success are ignored. *)
Lemma probe_never_rearms_witness :
  let script := [mkRound (Some refused) TimerFired; mkRound None TimerFired] in
  testClusterDB (starting etcdDriver)
                (script ++ [mkRound (Some refused) TimerFired])
  = testClusterDB (starting etcdDriver) script.
Proof.
  intros script.
  apply (probe_never_rearms (starting etcdDriver) script
           [mkRound (Some refused) TimerFired]).
  reflexivity.
Defined.

(** X17: two failures after a success keep its list. *)
Lemma proxy_holds_last_success_witness :
  let failed := ([], Some (Errorf "context deadline exceeded")) in
  addresses (fst (setupEtcdProxy (starting etcdDriver) (mkProxy ["stale"])
                    [ (["https://10.0.0.1:2379"], None); failed; failed ]))
  = ["https://10.0.0.1:2379"]
  /\ fst (setupEtcdProxy (starting etcdDriver) (mkProxy ["stale"])
            [failed; failed])
     = mkProxy ["stale"].
Proof.
  intros failed.
  destruct (proxy_holds_last_success (starting etcdDriver) etcdDriver
              (mkProxy ["stale"]) eq_refl) as (Hlast & Hnone).
  assert (Hfailed : Forall failedAnswer [failed; failed]).
  { repeat constructor; discriminate. }
  split.
  - exact (Hlast [] ["https://10.0.0.1:2379"] [failed; failed] Hfailed).
  - exact (Hnone [failed; failed] Hfailed).
Defined.

(** X18: three ticks, one of them failing. *)
Lemma proxy_one_query_per_tick_witness :
  let ticks := [ (["https://10.0.0.1:2379"], None);
                 ([], Some (Errorf "context deadline exceeded"));
                 (["https://10.0.0.2:2379"], None) ] in
  let r := setupEtcdProxy (starting etcdDriver) (mkProxy []) ticks in
  calls is_NewTicker (snd r) = 1
  /\ calls is_CallGetMembersClientURLs (snd r) = 3
  /\ calls is_ProxyUpdate (snd r) = 2
  /\ setupEtcdProxy (unbound "" false) (mkProxy []) ticks = (mkProxy [], []).
Proof.
  intros ticks r.
  destruct (proj1 (proxy_one_query_per_tick (starting etcdDriver)
                     (mkProxy []) ticks)) as (Hticker & Hqueries & Hupdates).
  - discriminate.
  - split; [exact Hticker|]. split; [exact Hqueries|].
    split; [exact Hupdates|].
    exact (proj2 (proxy_one_query_per_tick (unbound "" false)
                    (mkProxy []) ticks) eq_refl).
Defined.
